(** * The starfield component of gimbergsson-dev ([src/App.vue])

    A shallow embedding of the component's script: the star-generation loop,
    the two closures created at mount ([handleResize], [animate]) and the two
    lifecycle callbacks ([onMounted], [onUnmounted]), together with the parts
    of the browser they talk to (the viewport, the resize listeners, the
    animation-frame scheduler, [Math.random]) and a log of the calls made to
    the graphics library.

    JavaScript numbers are IEEE-754 binary64 values.  The script is embedded
    once, over an interface [Number] of the arithmetic it uses, and read at
    two instances: [binary64] (Rocq's primitive floats, what the browser
    computes, with [Math.fround] for stores into a [Float32Array]) and
    [exact] (the real numbers, the arithmetic in which the specification
    states its ranges and distances "within floating-point tolerance"). *)

From Stdlib Require Import ZArith QArith Reals Lra Lia Floats String.
From stdpp Require Import base list gmap strings.

Set Warnings "-inexact-float,-abstract-large-number".

(** ** Numbers *)

Class Number (T : Type) : Type := {
  lit : Q -> T;             (* a numeric literal of the script *)
  nadd : T -> T -> T;
  nsub : T -> T -> T;
  nmul : T -> T -> T;
  ndiv : T -> T -> T;
  nsqrt : T -> T;           (* Math.sqrt *)
  nltb : T -> T -> bool;    (* a < b *)
  nleb : T -> T -> bool;    (* a <= b *)
  fround : T -> T           (* the value a Float32Array element holds after a store *)
}.

Declare Scope num_scope.
Declare Scope js_scope.
Delimit Scope num_scope with num.
Notation "x + y" := (nadd x y) : num_scope.
Notation "x - y" := (nsub x y) : num_scope.
Notation "x * y" := (nmul x y) : num_scope.
Notation "x / y" := (ndiv x y) : num_scope.
Notation "x <? y" := (nltb x y) : num_scope.
Notation "x <=? y" := (nleb x y) : num_scope.

(** *** IEEE-754 binary64, the numbers of the JavaScript engine *)

Definition float_of_Z (z : Z) : float :=
  match z with
  | Z0 => PrimFloat.zero
  | Zpos p => PrimFloat.of_uint63 (Uint63.of_Z (Zpos p))
  | Zneg p => PrimFloat.opp (PrimFloat.of_uint63 (Uint63.of_Z (Zpos p)))
  end.

(** A decimal literal denotes the double nearest to it; numerator and
    denominator of the script's literals are exact doubles and IEEE division
    rounds to nearest, so the quotient is that double. *)
Definition float_lit (q : Q) : float :=
  PrimFloat.div (float_of_Z (Qnum q)) (float_of_Z (Zpos (Qden q))).

(** [Math.fround]: round a double to the nearest binary32 value (ties to
    even, precision 24, maximal exponent 128), kept as a double. *)
Definition float_fround (x : float) : float :=
  match Prim2SF x with
  | S754_finite s m e => SF2Prim (SpecFloat.binary_round 24 128 s m e)
  | _ => x
  end.

#[export] Instance binary64 : Number float := {|
  lit := float_lit;
  nadd := PrimFloat.add;
  nsub := PrimFloat.sub;
  nmul := PrimFloat.mul;
  ndiv := PrimFloat.div;
  nsqrt := PrimFloat.sqrt;
  nltb := PrimFloat.ltb;
  nleb := PrimFloat.leb;
  fround := float_fround
|}.

(** A double is finite when it is neither an infinity nor NaN. *)
Definition is_finite (x : float) : bool :=
  negb (PrimFloat.is_nan x || PrimFloat.is_infinity x).

(** *** Exact arithmetic *)

Definition Rltb (x y : R) : bool := if Rlt_dec x y then true else false.
Definition Rleb (x y : R) : bool := if Rle_dec x y then true else false.

#[export] Instance exact : Number R := {|
  lit := Q2R;
  nadd := Rplus;
  nsub := Rminus;
  nmul := Rmult;
  ndiv := Rdiv;
  nsqrt := R_sqrt.sqrt;
  nltb := Rltb;
  nleb := Rleb;
  fround := fun x => x
|}.

Section Starfield.

Context {T : Type} `{Number T}.
Local Open Scope num_scope.

(** ** [Math.random]

    The generator is an oracle: the sequence of values it will return, and
    how many of them have been consumed. *)

Record Rng : Type := { draws : nat -> T; cursor : nat }.

Definition random (g : Rng) : T * Rng :=
  (draws g (cursor g), {| draws := draws g; cursor := S (cursor g) |}).

(** Every value [Math.random] returns lies in [0, 1). *)
Definition unit_draws (g : Rng) : Prop :=
  forall k, (lit 0 <=? draws g k) = true /\ (draws g k <? lit 1) = true.

(** ** [Float32Array]

    [elems] are the elements; [stored] is a ghost history of the indices
    assigned to, latest first.  A store rounds to binary32; a store outside
    the array is ignored by JavaScript, as by [<[i:=v]>]. *)

Record Float32Array : Type := { elems : list T; stored : list nat }.

Definition new_Float32Array (n : nat) : Float32Array :=
  {| elems := replicate n (lit 0); stored := [] |}.

Definition store (a : Float32Array) (i : nat) (v : T) : Float32Array :=
  {| elems := <[i := fround v]> (elems a); stored := i :: stored a |}.

(** ** The star-generation loop ([onMounted], lines 30-65) *)

Definition starCount : nat := 2000.

Record StarBuffers : Type := {
  positions : Float32Array;
  colors : Float32Array;
  sizes : Float32Array
}.

(** One iteration of [for (let i = 0; i < starCount; i++)]. *)
Definition star (i : nat) (st : StarBuffers * Rng) : StarBuffers * Rng :=
  let '(b, g) := st in
  let i3 := (i * 3)%nat in
  (* Generate position with minimum distance from camera *)
  let '(r, g) := random g in let x := (r - lit 0.5) * lit 20 in
  let '(r, g) := random g in let y := (r - lit 0.5) * lit 20 in
  let '(r, g) := random g in let z := (r - lit 0.5) * lit 20 in
  let minDistance := lit 2 in
  let distance := nsqrt (x * x + y * y + z * z) in
  let '(x, y, z) :=
    if distance <? minDistance then
      let scale := minDistance / distance in
      (x * scale, y * scale, z * scale)
    else (x, y, z) in
  let positions := store (positions b) i3 x in
  let positions := store positions (i3 + 1) y in
  let positions := store positions (i3 + 2) z in
  (* Random RGB colors *)
  let '(r, g) := random g in let colors := store (colors b) i3 r in
  let '(r, g) := random g in let colors := store colors (i3 + 1) r in
  let '(r, g) := random g in let colors := store colors (i3 + 2) r in
  (* Random sizes *)
  let '(r, g) := random g in
  let sizes := store (sizes b) i (r * lit 0.3 + lit 0.1) in
  ({| positions := positions; colors := colors; sizes := sizes |}, g).

(** [for (let i = 0; i < n; i++)] around that body. *)
Definition star_loop (n : nat) (st : StarBuffers * Rng) : StarBuffers * Rng :=
  fold_left (fun st i => star i st) (seq 0 n) st.

Definition generate_stars (g : Rng) : StarBuffers * Rng :=
  let positions := new_Float32Array (starCount * 3) in
  let colors := new_Float32Array (starCount * 3) in
  let sizes := new_Float32Array starCount in
  star_loop starCount
    ({| positions := positions; colors := colors; sizes := sizes |}, g).

(** *** What iteration [i] stores, as a function of the oracle

    Iteration [i] consumes the seven draws [7 i .. 7 i + 6] after the
    cursor: three for the position, three for the colour, one for the size. *)

Definition coordinate (r : T) : T := (r - lit 0.5) * lit 20.

Definition norm (p : T * T * T) : T :=
  let '(x, y, z) := p in nsqrt (x * x + y * y + z * z).

(** The position as first drawn. *)
Definition drawn (g : Rng) (i : nat) : T * T * T :=
  (coordinate (draws g (cursor g + 7 * i)),
   coordinate (draws g (cursor g + 7 * i + 1)),
   coordinate (draws g (cursor g + 7 * i + 2))).

(** The position after the minimum-distance adjustment (lines 45-52). *)
Definition placed (p : T * T * T) : T * T * T :=
  let '(x, y, z) := p in
  let distance := norm p in
  if distance <? lit 2 then
    let scale := lit 2 / distance in (x * scale, y * scale, z * scale)
  else (x, y, z).

Definition drawn_color (g : Rng) (i k : nat) : T := draws g (cursor g + 7 * i + 3 + k).

Definition drawn_size (g : Rng) (i : nat) : T :=
  draws g (cursor g + 7 * i + 6) * lit 0.3 + lit 0.1.

(** The three elements of the position buffer that belong to star [i]. *)
Definition stored_position (b : StarBuffers) (i : nat) : option (T * T * T) :=
  match elems (positions b) !! (i * 3)%nat,
        elems (positions b) !! (i * 3 + 1)%nat,
        elems (positions b) !! (i * 3 + 2)%nat with
  | Some x, Some y, Some z => Some (x, y, z)
  | _, _, _ => None
  end.

Definition fround3 (p : T * T * T) : T * T * T :=
  let '(x, y, z) := p in (fround x, fround y, fround z).

(** *** The two numeric properties of the generated stars, read in [T]

    The minimum-distance property: the coordinates first drawn for star [i]
    lie in [-10, 10); when their distance [d] from the origin satisfies
    [0 < d < 2] the stored position is the drawn one multiplied by [2 / d]
    and has distance 2; when [2 <= d] the stored position is the drawn one;
    and when [0 < d] the stored position has distance at least 2. *)
Definition minimum_distance_property : Prop :=
  forall (g : Rng) (i : nat) (x0 y0 z0 : T),
    unit_draws g -> (i < starCount)%nat -> drawn g i = (x0, y0, z0) ->
    let d := norm (x0, y0, z0) in
    ((lit (-10) <=? x0) = true /\ (x0 <? lit 10) = true) /\
    ((lit (-10) <=? y0) = true /\ (y0 <? lit 10) = true) /\
    ((lit (-10) <=? z0) = true /\ (z0 <? lit 10) = true) /\
    exists x y z : T,
      stored_position (fst (generate_stars g)) i = Some (x, y, z) /\
      ((lit 0 <? d) = true -> (d <? lit 2) = true ->
         (x, y, z) = (x0 * (lit 2 / d), y0 * (lit 2 / d), z0 * (lit 2 / d)) /\
         norm (x, y, z) = lit 2) /\
      ((lit 2 <=? d) = true -> (x, y, z) = (x0, y0, z0)) /\
      ((lit 0 <? d) = true -> (lit 2 <=? norm (x, y, z)) = true).

(** The range property: the size stored for star [i] is [r * 0.3 + 0.1]
    for a draw [r] in [0, 1) and lies in [0.1, 0.4), and each of its three
    stored colour components lies in [0, 1). *)
Definition size_color_range_property : Prop :=
  forall (g : Rng) (i : nat),
    unit_draws g -> (i < starCount)%nat ->
    let b := fst (generate_stars g) in
    (exists r s : T,
       ((lit 0 <=? r) = true /\ (r <? lit 1) = true) /\
       elems (sizes b) !! i = Some s /\
       s = r * lit 0.3 + lit 0.1 /\
       (lit 0.1 <=? s) = true /\ (s <? lit 0.4) = true) /\
    (forall k : nat, (k < 3)%nat ->
       exists c : T,
         elems (colors b) !! (i * 3 + k)%nat = Some c /\
         (lit 0 <=? c) = true /\ (c <? lit 1) = true).

(** What the loop stores, in any arithmetic: the position of star [i] is
    the drawn one, multiplied by [2 / d] when [d < 2], each coordinate
    rounded by the store; its size is [r * 0.3 + 0.1] for the seventh draw
    [r] of the iteration, rounded by the store, and its colour components
    are the fourth to sixth draws, rounded by the store. *)
Definition placement_rule : Prop :=
  forall (g : Rng) (i : nat) (x0 y0 z0 : T),
    (i < starCount)%nat -> drawn g i = (x0, y0, z0) ->
    let d := norm (x0, y0, z0) in
    stored_position (fst (generate_stars g)) i =
      Some (if d <? lit 2
            then (fround (x0 * (lit 2 / d)), fround (y0 * (lit 2 / d)),
                  fround (z0 * (lit 2 / d)))
            else (fround x0, fround y0, fround z0)).

Definition size_color_rule : Prop :=
  forall (g : Rng) (i : nat),
    (i < starCount)%nat ->
    let b := fst (generate_stars g) in
    elems (sizes b) !! i
      = Some (fround (draws g (cursor g + 7 * i + 6) * lit 0.3 + lit 0.1)) /\
    forall k : nat, (k < 3)%nat ->
      elems (colors b) !! (i * 3 + k)%nat
        = Some (fround (draws g (cursor g + 7 * i + 3 + k))).

(** ** Objects of the graphics library

    three.js is external to the repository; its objects are records of the
    properties the script reads or writes. *)

Inductive HTMLCanvasElement : Type := CanvasElement.

Record Vector3 : Type := { vx : T; vy : T; vz : T }.
Record Euler : Type := { ex : T; ey : T; ez : T }.

(** The projection matrix is a function of the four frustum parameters; it
    is represented by the parameters it was last computed from. *)
Record Projection : Type := { p_fov : T; p_aspect : T; p_near : T; p_far : T }.

Record PerspectiveCamera : Type := {
  fov : T; aspect : T; near : T; far : T;
  position : Vector3;
  projectionMatrix : Projection
}.

Definition updateProjectionMatrix (c : PerspectiveCamera) : PerspectiveCamera :=
  {| fov := fov c; aspect := aspect c; near := near c; far := far c;
     position := position c;
     projectionMatrix :=
       {| p_fov := fov c; p_aspect := aspect c; p_near := near c; p_far := far c |} |}.

Definition new_PerspectiveCamera (fov aspect near far : T) : PerspectiveCamera :=
  updateProjectionMatrix
    {| fov := fov; aspect := aspect; near := near; far := far;
       position := {| vx := lit 0; vy := lit 0; vz := lit 0 |};
       projectionMatrix :=
         {| p_fov := fov; p_aspect := aspect; p_near := near; p_far := far |} |}.

Record WebGLRenderer : Type := {
  domElement : HTMLCanvasElement;
  antialias : bool;
  width : T; height : T;
  pixelRatio : T
}.

(** A new renderer has the canvas' intrinsic size (300 x 150) and ratio 1. *)
Definition new_WebGLRenderer (c : HTMLCanvasElement) (aa : bool) : WebGLRenderer :=
  {| domElement := c; antialias := aa;
     width := lit 300; height := lit 150; pixelRatio := lit 1 |}.

Definition setSize (w h : T) (r : WebGLRenderer) : WebGLRenderer :=
  {| domElement := domElement r; antialias := antialias r;
     width := w; height := h; pixelRatio := pixelRatio r |}.

Definition setPixelRatio (p : T) (r : WebGLRenderer) : WebGLRenderer :=
  {| domElement := domElement r; antialias := antialias r;
     width := width r; height := height r; pixelRatio := p |}.

Record Texture : Type := { url : string }.

Record BufferAttribute : Type := { array : Float32Array; itemSize : nat }.

(** The number of items of an attribute, [array.length / itemSize]. *)
Definition count (a : BufferAttribute) : nat :=
  (length (elems (array a)) / itemSize a)%nat.

(** A geometry is its table of named attributes. *)
Definition BufferGeometry : Type := gmap string BufferAttribute.

Definition setAttribute (name : string) (a : BufferAttribute)
    (g : BufferGeometry) : BufferGeometry :=
  <[name := a]> g.

Record Uniforms : Type := { uTime : T; uTexture : Texture }.

Inductive Blending : Type := NormalBlending | AdditiveBlending.

(** The shader sources are GLSL text run by the GPU and are left out. *)
Record ShaderMaterial : Type := {
  uniforms : option Uniforms;
  transparent : bool;
  blending : Blending;
  depthWrite : bool
}.

(** [new THREE.Points(starsGeometry, starsMaterial)]: the material of the
    points object is the object bound to [starsMaterial], which the world
    below holds once; the points object holds its geometry and rotation. *)
Record Points : Type := { geometry : BufferGeometry; rotation : Euler }.

(** The children of the scene are references; the only object ever added
    is the one bound to [stars]. *)
Inductive Object3D : Type := StarsObject.
Record Scene : Type := { children : list Object3D }.

(** ** The world: the script's variables and the browser

    [canvas] is the template ref; [scene], [camera], [renderer] and
    [animationFrameId] are the module-level [let] variables, undefined until
    assigned; [stars] and [starsMaterial] are the constants of the mount
    callback that its closures capture.  The rest is browser state: the
    viewport, the listeners of the resize event, the animation-frame
    scheduler (the last handle handed out and the callbacks waiting for the
    next frame) and [Math.random].  [calls] is a ghost log of the calls made
    to the graphics library and the browser, latest first. *)

Inductive Closure : Type := HandleResize | Animate.

Inductive Call : Type :=
  | NewScene
  | NewPerspectiveCamera
  | NewWebGLRenderer
  | SetSize (w h : T)
  | SetPixelRatio (p : T)
  | TextureLoad (path : string)
  | NewBufferGeometry
  | NewShaderMaterial
  | NewPoints
  | SceneAdd
  | AddEventListener (type : string) (f : Closure)
  | RequestAnimationFrame (f : Closure) (handle : nat)
  | CancelAnimationFrame (handle : nat)
  | UpdateProjectionMatrix
  | Render
  | Dispose.

Record Window : Type := { innerWidth : T; innerHeight : T; devicePixelRatio : T }.

Record World : Type := {
  canvas : option HTMLCanvasElement;
  scene : option Scene;
  camera : option PerspectiveCamera;
  renderer : option WebGLRenderer;
  animationFrameId : option nat;
  stars : option Points;
  starsMaterial : option ShaderMaterial;
  window : Window;
  resizeListeners : list Closure;
  frameHandle : nat;
  frameCallbacks : list (nat * Closure);
  rng : Rng;
  calls : list Call
}.

(** The page before the component is mounted. *)
Definition initial_world (c : option HTMLCanvasElement) (v : Window) (g : Rng) : World :=
  {| canvas := c; scene := None; camera := None; renderer := None;
     animationFrameId := None; stars := None; starsMaterial := None;
     window := v; resizeListeners := []; frameHandle := 0; frameCallbacks := [];
     rng := g; calls := [] |}.

Definition set_scene (x : option Scene) (w : World) : World :=
  {| canvas := canvas w; scene := x; camera := camera w; renderer := renderer w;
     animationFrameId := animationFrameId w; stars := stars w;
     starsMaterial := starsMaterial w; window := window w;
     resizeListeners := resizeListeners w; frameHandle := frameHandle w;
     frameCallbacks := frameCallbacks w; rng := rng w; calls := calls w |}.

Definition set_camera (x : option PerspectiveCamera) (w : World) : World :=
  {| canvas := canvas w; scene := scene w; camera := x; renderer := renderer w;
     animationFrameId := animationFrameId w; stars := stars w;
     starsMaterial := starsMaterial w; window := window w;
     resizeListeners := resizeListeners w; frameHandle := frameHandle w;
     frameCallbacks := frameCallbacks w; rng := rng w; calls := calls w |}.

Definition set_renderer (x : option WebGLRenderer) (w : World) : World :=
  {| canvas := canvas w; scene := scene w; camera := camera w; renderer := x;
     animationFrameId := animationFrameId w; stars := stars w;
     starsMaterial := starsMaterial w; window := window w;
     resizeListeners := resizeListeners w; frameHandle := frameHandle w;
     frameCallbacks := frameCallbacks w; rng := rng w; calls := calls w |}.

Definition set_animationFrameId (x : option nat) (w : World) : World :=
  {| canvas := canvas w; scene := scene w; camera := camera w; renderer := renderer w;
     animationFrameId := x; stars := stars w;
     starsMaterial := starsMaterial w; window := window w;
     resizeListeners := resizeListeners w; frameHandle := frameHandle w;
     frameCallbacks := frameCallbacks w; rng := rng w; calls := calls w |}.

Definition set_stars (x : option Points) (w : World) : World :=
  {| canvas := canvas w; scene := scene w; camera := camera w; renderer := renderer w;
     animationFrameId := animationFrameId w; stars := x;
     starsMaterial := starsMaterial w; window := window w;
     resizeListeners := resizeListeners w; frameHandle := frameHandle w;
     frameCallbacks := frameCallbacks w; rng := rng w; calls := calls w |}.

Definition set_starsMaterial (x : option ShaderMaterial) (w : World) : World :=
  {| canvas := canvas w; scene := scene w; camera := camera w; renderer := renderer w;
     animationFrameId := animationFrameId w; stars := stars w;
     starsMaterial := x; window := window w;
     resizeListeners := resizeListeners w; frameHandle := frameHandle w;
     frameCallbacks := frameCallbacks w; rng := rng w; calls := calls w |}.

Definition set_window (x : Window) (w : World) : World :=
  {| canvas := canvas w; scene := scene w; camera := camera w; renderer := renderer w;
     animationFrameId := animationFrameId w; stars := stars w;
     starsMaterial := starsMaterial w; window := x;
     resizeListeners := resizeListeners w; frameHandle := frameHandle w;
     frameCallbacks := frameCallbacks w; rng := rng w; calls := calls w |}.

Definition set_resizeListeners (x : list Closure) (w : World) : World :=
  {| canvas := canvas w; scene := scene w; camera := camera w; renderer := renderer w;
     animationFrameId := animationFrameId w; stars := stars w;
     starsMaterial := starsMaterial w; window := window w;
     resizeListeners := x; frameHandle := frameHandle w;
     frameCallbacks := frameCallbacks w; rng := rng w; calls := calls w |}.

Definition set_frames (h : nat) (x : list (nat * Closure)) (w : World) : World :=
  {| canvas := canvas w; scene := scene w; camera := camera w; renderer := renderer w;
     animationFrameId := animationFrameId w; stars := stars w;
     starsMaterial := starsMaterial w; window := window w;
     resizeListeners := resizeListeners w; frameHandle := h;
     frameCallbacks := x; rng := rng w; calls := calls w |}.

Definition set_rng (x : Rng) (w : World) : World :=
  {| canvas := canvas w; scene := scene w; camera := camera w; renderer := renderer w;
     animationFrameId := animationFrameId w; stars := stars w;
     starsMaterial := starsMaterial w; window := window w;
     resizeListeners := resizeListeners w; frameHandle := frameHandle w;
     frameCallbacks := frameCallbacks w; rng := x; calls := calls w |}.

Definition set_calls (x : list Call) (w : World) : World :=
  {| canvas := canvas w; scene := scene w; camera := camera w; renderer := renderer w;
     animationFrameId := animationFrameId w; stars := stars w;
     starsMaterial := starsMaterial w; window := window w;
     resizeListeners := resizeListeners w; frameHandle := frameHandle w;
     frameCallbacks := frameCallbacks w; rng := rng w; calls := x |}.

(** ** Script code: a state monad over the world, with exceptions *)

Inductive Error : Type := TypeError.

Inductive Outcome (A : Type) : Type :=
  | Return (a : A) (w : World)
  | Throw (e : Error) (w : World).
Arguments Return {A} a w.
Arguments Throw {A} e w.

Definition JS (A : Type) : Type := World -> Outcome A.

Definition ret {A} (a : A) : JS A := fun w => Return a w.

Definition bind {A B} (c : JS A) (k : A -> JS B) : JS B :=
  fun w => match c w with
           | Return a w' => k a w'
           | Throw e w' => Throw e w'
           end.

Notation "x <- c ;; k" := (bind c (fun x => k))
  (at level 100, c at next level, k at level 200, right associativity) : js_scope.
Notation "c ;; k" := (bind c (fun _ => k))
  (at level 100, k at level 200, right associativity) : js_scope.
Local Open Scope js_scope.

Definition read {A} (f : World -> A) : JS A := fun w => Return (f w) w.
Definition update (f : World -> World) : JS unit := fun w => Return tt (f w).

(** The world an outcome leaves behind. *)
Definition world_of {A} (o : Outcome A) : World :=
  match o with Return _ w => w | Throw _ w => w end.

(** Reading a property of, or calling a method on, the value of a variable:
    a [TypeError] when the variable is undefined. *)
Definition deref {A} (f : World -> option A) : JS A :=
  fun w => match f w with
           | Some a => Return a w
           | None => Throw TypeError w
           end.

Definition call (c : Call) : JS unit := update (fun w => set_calls (c :: calls w) w).

(** [requestAnimationFrame(f)]: the handle is the incremented identifier. *)
Definition requestAnimationFrame (f : Closure) : JS nat :=
  h <- read frameHandle ;;
  q <- read frameCallbacks ;;
  update (set_frames (S h) (q ++ [(S h, f)])) ;;
  call (RequestAnimationFrame f (S h)) ;;
  ret (S h).

(** [cancelAnimationFrame(handle)] removes the callback with that handle. *)
Definition cancelAnimationFrame (handle : nat) : JS unit :=
  h <- read frameHandle ;;
  q <- read frameCallbacks ;;
  update (set_frames h (filter (fun e => fst e <> handle) q)) ;;
  call (CancelAnimationFrame handle).

(** JavaScript truthiness of a variable holding a number or undefined. *)
Definition truthy (x : option nat) : bool :=
  match x with
  | Some (S _) => true
  | _ => false
  end.

(** *** [handleResize] (lines 115-119) *)

Definition handleResize : JS unit :=
  v <- read window ;;
  c <- deref camera ;;
  let c := {| fov := fov c; aspect := innerWidth v / innerHeight v;
              near := near c; far := far c; position := position c;
              projectionMatrix := projectionMatrix c |} in
  update (set_camera (Some c)) ;;
  c <- deref camera ;;
  update (set_camera (Some (updateProjectionMatrix c))) ;;
  call UpdateProjectionMatrix ;;
  r <- deref renderer ;;
  update (set_renderer (Some (setSize (innerWidth v) (innerHeight v) r))) ;;
  call (SetSize (innerWidth v) (innerHeight v)).

(** *** [animate] (lines 123-133)

    [stars] and [starsMaterial] are constants of the mount callback: in the
    browser the closure exists only once they are bound, so the [TypeError]
    of [deref] on them stands for a state the page cannot be in. *)

Definition animate : JS unit :=
  id <- requestAnimationFrame Animate ;;
  update (set_animationFrameId (Some id)) ;;
  s <- deref stars ;;
  let r := rotation s in
  update (set_stars (Some {| geometry := geometry s;
    rotation := {| ex := ex r; ey := ey r + lit 0.0002; ez := ez r |} |})) ;;
  (* Update shader time uniform for animation *)
  m <- deref starsMaterial ;;
  match uniforms m with
  | Some u =>
      update (set_starsMaterial (Some {|
        uniforms := Some {| uTime := uTime u + lit 0.01; uTexture := uTexture u |};
        transparent := transparent m; blending := blending m;
        depthWrite := depthWrite m |}))
  | None => ret tt
  end ;;
  _ <- deref renderer ;;
  call Render.

(** *** [onMounted] (lines 11-135) *)

Definition onMounted : JS unit :=
  cv <- read canvas ;;
  match cv with
  | None => ret tt
  | Some cv =>
      (* Scene setup *)
      update (set_scene (Some {| children := [] |})) ;;
      call NewScene ;;
      (* Camera setup *)
      v <- read window ;;
      update (set_camera (Some
        (new_PerspectiveCamera (lit 75) (innerWidth v / innerHeight v)
           (lit 0.1) (lit 1000)))) ;;
      call NewPerspectiveCamera ;;
      c <- deref camera ;;
      let p := position c in
      update (set_camera (Some {| fov := fov c; aspect := aspect c;
        near := near c; far := far c;
        position := {| vx := vx p; vy := vy p; vz := lit 5 |};
        projectionMatrix := projectionMatrix c |})) ;;
      (* Renderer setup *)
      update (set_renderer (Some (new_WebGLRenderer cv true))) ;;
      call NewWebGLRenderer ;;
      r <- deref renderer ;;
      update (set_renderer (Some (setSize (innerWidth v) (innerHeight v) r))) ;;
      call (SetSize (innerWidth v) (innerHeight v)) ;;
      r <- deref renderer ;;
      update (set_renderer (Some (setPixelRatio (devicePixelRatio v) r))) ;;
      call (SetPixelRatio (devicePixelRatio v)) ;;
      (* Load star texture and create particle system *)
      call (TextureLoad "/star-sprite.png") ;;
      let starTexture := {| url := "/star-sprite.png" |} in
      call NewBufferGeometry ;;
      g <- read rng ;;
      let '(b, g) := generate_stars g in
      update (set_rng g) ;;
      let starsGeometry :=
        setAttribute "size" {| array := sizes b; itemSize := 1 |}
          (setAttribute "color" {| array := colors b; itemSize := 3 |}
             (setAttribute "position" {| array := positions b; itemSize := 3 |} ∅)) in
      (* Custom shader material *)
      let material :=
        {| uniforms := Some {| uTime := lit 0; uTexture := starTexture |};
           transparent := true; blending := AdditiveBlending;
           depthWrite := false |} in
      update (set_starsMaterial (Some material)) ;;
      call NewShaderMaterial ;;
      update (set_stars (Some {| geometry := starsGeometry;
        rotation := {| ex := lit 0; ey := lit 0; ez := lit 0 |} |})) ;;
      call NewPoints ;;
      s <- deref scene ;;
      update (set_scene (Some {| children := children s ++ [StarsObject] |})) ;;
      call SceneAdd ;;
      (* Handle window resize *)
      l <- read resizeListeners ;;
      update (set_resizeListeners (l ++ [HandleResize])) ;;
      call (AddEventListener "resize" HandleResize) ;;
      (* Animation loop *)
      animate
  end.

(** *** [onUnmounted] (lines 137-142) *)

Definition onUnmounted : JS unit :=
  id <- read animationFrameId ;;
  (if truthy id then
     match id with
     | Some h => cancelAnimationFrame h
     | None => ret tt
     end
   else ret tt) ;;
  r <- read renderer ;;
  match r with
  | Some _ => call Dispose      (* renderer?.dispose() *)
  | None => ret tt
  end.

(** ** The browser's events *)

Inductive BrowserEvent : Type :=
  | AnimationFrame
  | Resize (w h : T).

Definition run_closure (f : Closure) : JS unit :=
  match f with
  | HandleResize => handleResize
  | Animate => animate
  end.

(** An exception thrown by a callback is reported by the browser and the
    remaining callbacks still run. *)
Definition reported (c : JS unit) : JS unit :=
  fun w => Return tt (world_of (c w)).

Fixpoint run_all (fs : list Closure) : JS unit :=
  match fs with
  | [] => ret tt
  | f :: fs => reported (run_closure f) ;; run_all fs
  end.

Definition dispatch (e : BrowserEvent) : JS unit :=
  match e with
  | AnimationFrame =>
      (* run the animation frame callbacks: the list is taken and emptied first *)
      h <- read frameHandle ;;
      q <- read frameCallbacks ;;
      update (set_frames h []) ;;
      run_all (map snd q)
  | Resize w h =>
      v <- read window ;;
      update (set_window {| innerWidth := w; innerHeight := h;
                            devicePixelRatio := devicePixelRatio v |}) ;;
      l <- read resizeListeners ;;
      run_all l
  end.

Fixpoint run_events (es : list BrowserEvent) : JS unit :=
  match es with
  | [] => ret tt
  | e :: es => dispatch e ;; run_events es
  end.

(** [n] successive invocations of a callback. *)
Fixpoint invocations (n : nat) (c : JS unit) : JS unit :=
  match n with
  | O => ret tt
  | S n => c ;; invocations n c
  end.

(** *** What one invocation of [animate] does to a world in which the
    points object, its material and the renderer exist *)

Definition rotated (s : Points) : Points :=
  {| geometry := geometry s;
     rotation := {| ex := ex (rotation s);
                    ey := ey (rotation s) + lit 0.0002;
                    ez := ez (rotation s) |} |}.

Definition ticked (m : ShaderMaterial) : ShaderMaterial :=
  match uniforms m with
  | Some u =>
      {| uniforms := Some {| uTime := uTime u + lit 0.01; uTexture := uTexture u |};
         transparent := transparent m; blending := blending m;
         depthWrite := depthWrite m |}
  | None => m
  end.

Definition animated (w : World) (s : Points) (m : ShaderMaterial) : World :=
  {| canvas := canvas w; scene := scene w; camera := camera w;
     renderer := renderer w;
     animationFrameId := Some (S (frameHandle w));
     stars := Some (rotated s);
     starsMaterial := Some (ticked m);
     window := window w;
     resizeListeners := resizeListeners w;
     frameHandle := S (frameHandle w);
     frameCallbacks := frameCallbacks w ++ [(S (frameHandle w), Animate)];
     rng := rng w;
     calls := Render :: RequestAnimationFrame Animate (S (frameHandle w)) :: calls w |}.

(** What [n] invocations do, in any arithmetic: they all return, the
    rotation has been advanced [n] times and the material [n] times. *)
Definition increments_rule : Prop :=
  forall (n : nat) (w : World) (s : Points) (m : ShaderMaterial)
         (r : WebGLRenderer),
    stars w = Some s -> starsMaterial w = Some m -> renderer w = Some r ->
    exists w' : World,
      invocations n animate w = Return tt w' /\
      stars w' = Some (Nat.iter n rotated s) /\
      starsMaterial w' = Some (Nat.iter n ticked m).

(** The number of calls in the log that satisfy a test. *)
Definition count_calls (p : Call -> bool) (w : World) : nat :=
  length (List.filter p (calls w)).

Definition is_Render (c : Call) : bool :=
  match c with Render => true | _ => false end.

Definition is_Dispose (c : Call) : bool :=
  match c with Dispose => true | _ => false end.

(** *** What [handleResize] does to a world in which the camera and the
    renderer exist *)

Definition resized (w : World) (c : PerspectiveCamera) (r : WebGLRenderer) : World :=
  let v := window w in
  {| canvas := canvas w; scene := scene w;
     camera := Some (updateProjectionMatrix
       {| fov := fov c; aspect := innerWidth v / innerHeight v;
          near := near c; far := far c; position := position c;
          projectionMatrix := projectionMatrix c |});
     renderer := Some (setSize (innerWidth v) (innerHeight v) r);
     animationFrameId := animationFrameId w;
     stars := stars w; starsMaterial := starsMaterial w;
     window := v;
     resizeListeners := resizeListeners w;
     frameHandle := frameHandle w;
     frameCallbacks := frameCallbacks w;
     rng := rng w;
     calls := SetSize (innerWidth v) (innerHeight v) :: UpdateProjectionMatrix :: calls w |}.

(** *** States of the mounted component

    [running]: setup is complete and the animation loop is alive: exactly
    one callback, [animate], waits for the next frame, and its handle is
    the one stored in [animationFrameId]; [dispose] has not been called.
    [stopped]: no callback waits for a frame. *)

Definition running (w : World) : Prop :=
  exists (h : nat) (s : Points) (m : ShaderMaterial)
         (r : WebGLRenderer) (c : PerspectiveCamera),
    animationFrameId w = Some (S h) /\
    frameHandle w = S h /\
    frameCallbacks w = [(S h, Animate)] /\
    resizeListeners w = [HandleResize] /\
    stars w = Some s /\ starsMaterial w = Some m /\
    renderer w = Some r /\ camera w = Some c /\
    count_calls is_Dispose w = 0%nat.

Definition stopped (w : World) : Prop :=
  exists (r : WebGLRenderer) (c : PerspectiveCamera),
    frameCallbacks w = [] /\
    resizeListeners w = [HandleResize] /\
    renderer w = Some r /\ camera w = Some c.

(** *** States reachable after a mount

    [live k]: the component is mounted and [k] frames have been delivered
    since.  The loop is alive (one pending callback, whose handle [k + 1] is
    the stored one), [animate] has run [k + 1] times (once at mount), the
    camera and the renderer agree with the present viewport, and nothing has
    been disposed.
    [halted s m]: no callback is pending, the listener of the resize event
    is still registered, and the points object and its material are [s] and
    [m]. *)

Definition is_RequestAnimationFrame (c : Call) : bool :=
  match c with RequestAnimationFrame _ _ => true | _ => false end.

Definition is_frame (e : BrowserEvent) : bool :=
  match e with AnimationFrame => true | Resize _ _ => false end.

Definition count_frames (es : list BrowserEvent) : nat :=
  length (List.filter is_frame es).

(** The viewport after a sequence of events: that of the last resize. *)
Definition resize_viewport (e : BrowserEvent) (v : Window) : Window :=
  match e with
  | AnimationFrame => v
  | Resize a b =>
      {| innerWidth := a; innerHeight := b;
         devicePixelRatio := devicePixelRatio v |}
  end.

Definition viewport_after (es : list BrowserEvent) (v : Window) : Window :=
  fold_left (fun v e => resize_viewport e v) es v.

Definition live (k : nat) (w : World) : Prop :=
  exists (s : Points) (m : ShaderMaterial) (u : Uniforms)
         (r : WebGLRenderer) (c : PerspectiveCamera),
    (animationFrameId w = Some (S k) /\ frameHandle w = S k /\
     frameCallbacks w = [(S k, Animate)] /\
     resizeListeners w = [HandleResize]) /\
    (stars w = Some s /\
     rotation s = {| ex := lit 0;
                     ey := Nat.iter (S k) (fun a => a + lit 0.0002) (lit 0);
                     ez := lit 0 |}) /\
    (starsMaterial w = Some m /\ uniforms m = Some u /\
     uTime u = Nat.iter (S k) (fun t => t + lit 0.01) (lit 0)) /\
    (renderer w = Some r /\
     width r = innerWidth (window w) /\ height r = innerHeight (window w) /\
     pixelRatio r = devicePixelRatio (window w)) /\
    (camera w = Some c /\
     aspect c = innerWidth (window w) / innerHeight (window w) /\
     projectionMatrix c
       = {| p_fov := fov c; p_aspect := aspect c; p_near := near c; p_far := far c |} /\
     fov c = lit 75 /\ near c = lit 0.1 /\ far c = lit 1000 /\
     position c = {| vx := lit 0; vy := lit 0; vz := lit 5 |}) /\
    (count_calls is_Render w = S k /\
     count_calls is_RequestAnimationFrame w = S k /\
     count_calls is_Dispose w = 0%nat).

Definition halted (s : Points) (m : ShaderMaterial) (w : World) : Prop :=
  exists (r : WebGLRenderer) (c : PerspectiveCamera),
    frameCallbacks w = [] /\
    resizeListeners w = [HandleResize] /\
    stars w = Some s /\ starsMaterial w = Some m /\
    renderer w = Some r /\ camera w = Some c.

End Starfield.

Arguments Rng T : clear implicits.
Arguments Float32Array T : clear implicits.
Arguments StarBuffers T : clear implicits.
Arguments Vector3 T : clear implicits.
Arguments Euler T : clear implicits.
Arguments Projection T : clear implicits.
Arguments PerspectiveCamera T : clear implicits.
Arguments WebGLRenderer T : clear implicits.
Arguments BufferAttribute T : clear implicits.
Arguments BufferGeometry T : clear implicits.
Arguments Uniforms T : clear implicits.
Arguments ShaderMaterial T : clear implicits.
Arguments Points T : clear implicits.
Arguments Call T : clear implicits.
Arguments Window T : clear implicits.
Arguments World T : clear implicits.
Arguments Outcome T A : clear implicits.
Arguments JS T A : clear implicits.
Arguments BrowserEvent T : clear implicits.
Arguments Return {T A} a w.
Arguments Throw {T A} e w.

Notation "x <- c ;; k" := (bind c (fun x => k))
  (at level 100, c at next level, k at level 200, right associativity) : js_scope.
Notation "c ;; k" := (bind c (fun _ => k))
  (at level 100, k at level 200, right associativity) : js_scope.

(** ** A concrete page, in binary64: a 1920 x 1080 viewport of pixel
    ratio 2, and an oracle that always returns 0.53125 *)

Definition example_window : Window float :=
  {| innerWidth := 1920%float; innerHeight := 1080%float;
     devicePixelRatio := 2%float |}.

Definition example_rng : Rng float :=
  {| draws := fun _ => 0.53125%float; cursor := 0 |}.

(** A world in which the points object (rotation 0), its material (time
    uniform 0) and the renderer exist, as when the loop starts. *)
Definition example_scene : World float :=
  set_renderer (Some (new_WebGLRenderer CanvasElement true))
    (set_starsMaterial
       (Some {| uniforms := Some {| uTime := 0%float;
                                    uTexture := {| url := "/star-sprite.png" |} |};
                transparent := true; blending := AdditiveBlending;
                depthWrite := false |})
       (set_stars
          (Some {| geometry := ∅;
                   rotation := {| ex := 0%float; ey := 0%float; ez := 0%float |} |})
          (initial_world (Some CanvasElement) example_window example_rng))).

(** * Binary64 on the script's constants *)

Section Literals.

Local Open Scope float_scope.

(** The literals of the script denote the doubles JavaScript reads them as. *)
Lemma binary64_literals :
  (lit 0.5, lit 20, lit 2, lit 0.3, lit 0.1, lit 0.0002, lit 0.01, lit 75,
   lit 1000, lit 5, lit 0)
  = (0.5, 20, 2, 0.3, 0.1, 0.0002, 0.01, 75, 1000, 5, 0).
Proof. reflexivity. Qed.

(** [Math.fround] on a few values: a value with a binary32 neighbour on each
    side, a tie (rounded to even), an overflow, an underflow, the specials. *)
Lemma fround_examples :
  float_fround 0.1 = 0.10000000149011612 /\
  float_fround 0.4 = 0.4000000059604645 /\
  float_fround 16777217 = 16777216 /\
  float_fround 16777219 = 16777220 /\
  float_fround 1e39 = infinity /\
  float_fround 1e-46 = 0 /\
  float_fround 1.5 = 1.5 /\
  float_fround nan = nan /\
  float_fround neg_infinity = neg_infinity.
Proof. repeat split; reflexivity. Qed.

End Literals.

(** * Facts about the star-generation loop *)

Section Generation.

Context {T : Type} `{Number T}.
Local Open Scope num_scope.

Lemma star_loop_S n st : star_loop (S n) st = star n (star_loop n st).
Proof.
  unfold star_loop. rewrite seq_S, fold_left_app. reflexivity.
Qed.

(** One iteration, in terms of the values it stores. *)
Lemma star_step (i : nat) (b : StarBuffers T) (g0 : Rng T) (n : nat) :
  let g := {| draws := draws g0; cursor := cursor g0 + 7 * n |} in
  star i (b, g) =
    (let '(x, y, z) := placed (drawn g0 n) in
     {| positions :=
          store (store (store (positions b) (i * 3) x) (i * 3 + 1) y) (i * 3 + 2) z;
        colors :=
          store (store (store (colors b) (i * 3) (drawn_color g0 n 0))
                   (i * 3 + 1) (drawn_color g0 n 1)) (i * 3 + 2) (drawn_color g0 n 2);
        sizes := store (sizes b) i (drawn_size g0 n) |},
     {| draws := draws g0; cursor := cursor g0 + 7 * S n |}).
Proof.
  unfold star, random, placed, drawn, drawn_color, drawn_size, norm, coordinate.
  cbn [draws cursor].
  replace (S (cursor g0 + 7 * n)) with (cursor g0 + 7 * n + 1)%nat by lia.
  replace (S (cursor g0 + 7 * n + 1)) with (cursor g0 + 7 * n + 2)%nat by lia.
  replace (S (cursor g0 + 7 * n + 2)) with (cursor g0 + 7 * n + 3 + 0)%nat by lia.
  replace (S (cursor g0 + 7 * n + 3 + 0)) with (cursor g0 + 7 * n + 3 + 1)%nat by lia.
  replace (S (cursor g0 + 7 * n + 3 + 1)) with (cursor g0 + 7 * n + 3 + 2)%nat by lia.
  replace (S (cursor g0 + 7 * n + 3 + 2)) with (cursor g0 + 7 * n + 6)%nat by lia.
  replace (S (cursor g0 + 7 * n + 6)) with (cursor g0 + 7 * S n)%nat by lia.
  destruct (nltb _ _); reflexivity.
Qed.

Lemma star_loop_rng (n : nat) (b0 : StarBuffers T) (g0 : Rng T) :
  snd (star_loop n (b0, g0)) = {| draws := draws g0; cursor := cursor g0 + 7 * n |}.
Proof.
  induction n as [|n IH].
  - cbn. destruct g0 as [d c]. cbn. f_equal. lia.
  - rewrite star_loop_S.
    destruct (star_loop n (b0, g0)) as [b g]. cbn [snd] in IH. subst g.
    rewrite star_step. reflexivity.
Qed.

(** The state after [n] iterations, unfolded one step. *)
Lemma star_loop_step (n : nat) (b0 : StarBuffers T) (g0 : Rng T) :
  star_loop (S n) (b0, g0) =
    star n (fst (star_loop n (b0, g0)),
            {| draws := draws g0; cursor := cursor g0 + 7 * n |}).
Proof.
  rewrite star_loop_S.
  rewrite (surjective_pairing (star_loop n (b0, g0))) at 1.
  rewrite star_loop_rng. reflexivity.
Qed.

Lemma seq_rev_three (n : nat) :
  rev (seq 0 (S n * 3)) = (n * 3 + 2 :: n * 3 + 1 :: n * 3 :: rev (seq 0 (n * 3)))%nat.
Proof.
  replace (S n * 3)%nat with (n * 3 + 3)%nat by lia.
  rewrite seq_app, rev_app_distr. cbn [seq rev app Nat.add].
  repeat f_equal; lia.
Qed.

(** The history of stores: the loop assigns the indices in increasing order. *)
Lemma star_loop_stored (n : nat) (b0 : StarBuffers T) (g0 : Rng T) :
  let b := fst (star_loop n (b0, g0)) in
  stored (positions b) = rev (seq 0 (n * 3)) ++ stored (positions b0) /\
  stored (colors b) = rev (seq 0 (n * 3)) ++ stored (colors b0) /\
  stored (sizes b) = rev (seq 0 n) ++ stored (sizes b0).
Proof.
  induction n as [|n IH]; [cbn; auto|].
  cbn zeta in *. destruct IH as (Hp & Hc & Hs).
  rewrite star_loop_step, star_step.
  destruct (placed (drawn g0 n)) as [[x y] z].
  cbn [fst positions colors sizes store stored].
  rewrite Hp, Hc, Hs, seq_rev_three, seq_S, rev_app_distr.
  cbn [rev app Nat.add]. auto.
Qed.

Lemma star_loop_length (n : nat) (b0 : StarBuffers T) (g0 : Rng T) :
  let b := fst (star_loop n (b0, g0)) in
  length (elems (positions b)) = length (elems (positions b0)) /\
  length (elems (colors b)) = length (elems (colors b0)) /\
  length (elems (sizes b)) = length (elems (sizes b0)).
Proof.
  induction n as [|n IH]; [cbn; auto|].
  cbn zeta in *. destruct IH as (Hp & Hc & Hs).
  rewrite star_loop_step, star_step.
  destruct (placed (drawn g0 n)) as [[x y] z].
  cbn [fst positions colors sizes store elems].
  rewrite !length_insert. auto.
Qed.

(** The elements after [n] iterations: star [i < n] holds what iteration
    [i] stored, rounded to binary32. *)
Lemma star_loop_positions (n : nat) (b0 : StarBuffers T) (g0 : Rng T) (i : nat) :
  (i < n)%nat -> (n * 3 <= length (elems (positions b0)))%nat ->
  let b := fst (star_loop n (b0, g0)) in
  let '(x, y, z) := placed (drawn g0 i) in
  elems (positions b) !! (i * 3)%nat = Some (fround x) /\
  elems (positions b) !! (i * 3 + 1)%nat = Some (fround y) /\
  elems (positions b) !! (i * 3 + 2)%nat = Some (fround z).
Proof.
  induction n as [|n IH]; [lia|]. intros Hi Hlen. cbn zeta.
  rewrite star_loop_step, star_step.
  pose proof (star_loop_length n b0 g0) as (Hl & _ & _). cbn zeta in Hl.
  destruct (placed (drawn g0 n)) as [[xn yn] zn] eqn:En.
  cbn [fst positions store elems].
  destruct (decide (i = n)) as [-> | Hne].
  - rewrite En.
    rewrite list_lookup_insert_ne, list_lookup_insert_ne by lia.
    rewrite (list_lookup_insert_ne _ (n * 3 + 2) (n * 3 + 1)) by lia.
    rewrite !list_lookup_insert_eq by (rewrite ?length_insert; lia).
    auto.
  - assert (Hi' : (i < n)%nat) by lia.
    assert (Hlen' : (n * 3 <= length (elems (positions b0)))%nat) by lia.
    specialize (IH Hi' Hlen'). cbn zeta in IH.
    destruct (placed (drawn g0 i)) as [[x y] z].
    rewrite !list_lookup_insert_ne by lia. exact IH.
Qed.

Lemma star_loop_colors (n : nat) (b0 : StarBuffers T) (g0 : Rng T) (i k : nat) :
  (i < n)%nat -> (k < 3)%nat -> (n * 3 <= length (elems (colors b0)))%nat ->
  elems (colors (fst (star_loop n (b0, g0)))) !! (i * 3 + k)%nat
    = Some (fround (drawn_color g0 i k)).
Proof.
  induction n as [|n IH]; [lia|]. intros Hi Hk Hlen.
  rewrite star_loop_step, star_step.
  pose proof (star_loop_length n b0 g0) as (_ & Hl & _). cbn zeta in Hl.
  destruct (placed (drawn g0 n)) as [[xn yn] zn].
  cbn [fst colors store elems].
  destruct (decide (i = n)) as [-> | Hne].
  - assert (Hk' : k = 0%nat \/ k = 1%nat \/ k = 2%nat) by lia.
    destruct Hk' as [-> | [-> | ->]].
    + rewrite Nat.add_0_r.
      rewrite list_lookup_insert_ne, list_lookup_insert_ne by lia.
      rewrite list_lookup_insert_eq by lia. reflexivity.
    + rewrite list_lookup_insert_ne by lia.
      rewrite list_lookup_insert_eq by (rewrite ?length_insert; lia). reflexivity.
    + rewrite list_lookup_insert_eq by (rewrite ?length_insert; lia). reflexivity.
  - rewrite !list_lookup_insert_ne by lia. apply IH; lia.
Qed.

Lemma star_loop_sizes (n : nat) (b0 : StarBuffers T) (g0 : Rng T) (i : nat) :
  (i < n)%nat -> (n <= length (elems (sizes b0)))%nat ->
  elems (sizes (fst (star_loop n (b0, g0)))) !! i = Some (fround (drawn_size g0 i)).
Proof.
  induction n as [|n IH]; [lia|]. intros Hi Hlen.
  rewrite star_loop_step, star_step.
  pose proof (star_loop_length n b0 g0) as (_ & _ & Hl). cbn zeta in Hl.
  destruct (placed (drawn g0 n)) as [[xn yn] zn].
  cbn [fst sizes store elems].
  destruct (decide (i = n)) as [-> | Hne].
  - rewrite list_lookup_insert_eq by lia. reflexivity.
  - rewrite list_lookup_insert_ne by lia. apply IH; lia.
Qed.

(** *** The generated buffers *)

Lemma generate_stars_position (g : Rng T) (i : nat) :
  (i < starCount)%nat ->
  stored_position (fst (generate_stars g)) i = Some (fround3 (placed (drawn g i))).
Proof.
  intros Hi. unfold generate_stars, stored_position.
  pose proof (star_loop_positions starCount
    {| positions := new_Float32Array (starCount * 3);
       colors := new_Float32Array (starCount * 3);
       sizes := new_Float32Array starCount |} g i Hi) as Hp.
  cbn [positions new_Float32Array elems] in Hp.
  rewrite length_replicate in Hp. specialize (Hp (Nat.le_refl _)). cbn zeta in Hp.
  destruct (placed (drawn g i)) as [[x y] z].
  destruct Hp as (-> & -> & ->). reflexivity.
Qed.

Lemma generate_stars_color (g : Rng T) (i k : nat) :
  (i < starCount)%nat -> (k < 3)%nat ->
  elems (colors (fst (generate_stars g))) !! (i * 3 + k)%nat
    = Some (fround (drawn_color g i k)).
Proof.
  intros Hi Hk. unfold generate_stars.
  apply star_loop_colors; [assumption..|].
  cbn [colors new_Float32Array elems]. rewrite length_replicate. lia.
Qed.

Lemma generate_stars_size (g : Rng T) (i : nat) :
  (i < starCount)%nat ->
  elems (sizes (fst (generate_stars g))) !! i = Some (fround (drawn_size g i)).
Proof.
  intros Hi. unfold generate_stars.
  apply star_loop_sizes; [assumption|].
  cbn [sizes new_Float32Array elems]. rewrite length_replicate. lia.
Qed.

Lemma placement_rule_holds : placement_rule (T := T).
Proof.
  intros g i x0 y0 z0 Hi Hd d.
  rewrite generate_stars_position, Hd by exact Hi.
  unfold placed. fold d. destruct (nltb d (lit 2)); reflexivity.
Qed.

Lemma size_color_rule_holds : size_color_rule (T := T).
Proof.
  intros g i Hi b. split.
  - exact (generate_stars_size g i Hi).
  - intros k Hk. exact (generate_stars_color g i k Hi Hk).
Qed.

Lemma first_star : (0 < starCount)%nat.
Proof. unfold starCount. lia. Qed.

Lemma count_occ_rev_seq (n k : nat) :
  count_occ Nat.eq_dec (rev (seq 0 n)) k = if decide (k < n)%nat then 1%nat else 0%nat.
Proof.
  destruct (decide (k < n)%nat) as [Hk | Hk].
  - apply NoDup_count_occ'.
    + apply NoDup_rev, seq_NoDup.
    + rewrite <- in_rev, in_seq. lia.
  - apply count_occ_not_In. rewrite <- in_rev, in_seq. lia.
Qed.


End Generation.

(** * Exact arithmetic *)

Section Exact.

Local Open Scope R_scope.

Lemma Rltb_true (x y : R) : Rltb x y = true <-> x < y.
Proof. unfold Rltb. destruct (Rlt_dec x y); split; intros; [assumption|reflexivity|discriminate|contradiction]. Qed.

Lemma Rltb_false (x y : R) : Rltb x y = false <-> y <= x.
Proof. unfold Rltb. destruct (Rlt_dec x y); split; intros; try discriminate; try reflexivity; lra. Qed.

Lemma Rleb_true (x y : R) : Rleb x y = true <-> x <= y.
Proof. unfold Rleb. destruct (Rle_dec x y); split; intros; [assumption|reflexivity|discriminate|contradiction]. Qed.

Lemma unit_draws_exact (g : Rng R) (k : nat) :
  unit_draws g -> 0 <= draws g k < 1.
Proof.
  intros Hg. destruct (Hg k) as [H0 H1].
  apply Rleb_true in H0. apply Rltb_true in H1.
  cbn [lit exact] in H0, H1. unfold Q2R in H0, H1. cbn in H0, H1. lra.
Qed.

Lemma coordinate_exact (r : R) : coordinate r = (r - 1 / 2) * 20.
Proof. unfold coordinate. cbn. unfold Q2R. cbn. lra. Qed.

Lemma coordinate_range (r : R) : 0 <= r < 1 -> -10 <= coordinate r < 10.
Proof. rewrite coordinate_exact. lra. Qed.

Lemma norm_exact (x y z : R) : norm (x, y, z) = R_sqrt.sqrt (x * x + y * y + z * z).
Proof. reflexivity. Qed.

Lemma lit_exact_2 : lit (T := R) 2 = 2.
Proof. cbn. unfold Q2R. cbn. lra. Qed.

(** A point closer than 2 to the origin, and not at it, is moved radially
    to distance exactly 2. *)
Lemma placed_near (x y z : R) :
  let d := norm (x, y, z) in
  0 < d < 2 ->
  placed (x, y, z) = (x * (2 / d), y * (2 / d), z * (2 / d)) /\
  norm (placed (x, y, z)) = 2.
Proof.
  intros d Hd.
  assert (Hp : placed (x, y, z) = (x * (2 / d), y * (2 / d), z * (2 / d))).
  { unfold placed. fold d. rewrite lit_exact_2.
    cbn [nltb exact nmul ndiv].
    rewrite (proj2 (Rltb_true d 2) (proj2 Hd)). reflexivity. }
  split; [exact Hp|]. rewrite Hp, norm_exact.
  set (s := 2 / d). set (q := x * x + y * y + z * z).
  assert (Hs : 0 < s) by (apply Rdiv_lt_0_compat; lra).
  assert (Hq : 0 <= q) by (unfold q; nra).
  replace (x * s * (x * s) + y * s * (y * s) + z * s * (z * s)) with (s * s * q)
    by (unfold q; ring).
  rewrite sqrt_mult by nra. rewrite sqrt_square by lra.
  change (R_sqrt.sqrt q) with d. unfold s. field. lra.
Qed.

(** A point at distance 2 or more is left where it is. *)
Lemma placed_far (x y z : R) :
  2 <= norm (x, y, z) -> placed (x, y, z) = (x, y, z).
Proof.
  intros Hd. unfold placed. rewrite lit_exact_2. cbn [nltb exact].
  rewrite (proj2 (Rltb_false _ _) Hd). reflexivity.
Qed.

Lemma fround3_exact (p : R * R * R) : fround3 p = p.
Proof. destruct p as [[x y] z]. reflexivity. Qed.



(** The oracle that always returns 17/32 = 0.53125. *)
Lemma constant_unit_draws_exact :
  unit_draws {| draws := fun _ : nat => 17 / 32; cursor := 0 |}.
Proof.
  intros k. cbn [draws lit exact nleb nltb].
  split; [apply Rleb_true | apply Rltb_true]; unfold Q2R; cbn; lra.
Qed.



End Exact.

(** * IEEE-754 binary64 *)

Section Binary64.

Local Open Scope float_scope.

(** An oracle that returns the same value at every call. *)
Lemma constant_unit_draws (r : float) :
  PrimFloat.leb 0 r = true -> PrimFloat.ltb r 1 = true ->
  unit_draws {| draws := fun _ => r; cursor := 0 |}.
Proof. intros H0 H1 k. split; assumption. Qed.



(** *** The star drawn at the origin *)

(** Whatever [x] is, [x * infinity] and [x * -infinity] are NaN or infinite. *)
Lemma mul_infinity_cases (x s : float) :
  s = infinity \/ s = neg_infinity ->
  x * s = nan \/ x * s = infinity \/ x * s = neg_infinity.
Proof.
  intros Hs.
  rewrite <- (SF2Prim_Prim2SF (x * s)), mul_spec.
  destruct Hs as [-> | ->]; destruct (Prim2SF x) as [[|] | [|] | | [|] m e];
    cbn; auto.
Qed.

Lemma fround_not_finite (x : float) :
  x = nan \/ x = infinity \/ x = neg_infinity ->
  is_finite (float_fround x) = false.
Proof. intros [-> | [-> | ->]]; reflexivity. Qed.

(** C5. A star drawn exactly at the origin (distance 0, which happens when
    its three draws are 0.5) passes the test [distance < 2]; the rescale
    factor [2 / distance] is then infinite, nothing guards the case, and
    each of the three stored coordinates of that star is NaN or infinite. *)
Theorem origin_star_not_finite (g : Rng float) (i : nat) :
  (i < starCount)%nat ->
  norm (drawn g i) = 0 ->
  is_finite (2 / norm (drawn g i)) = false /\
  exists x y z : float,
    stored_position (fst (generate_stars g)) i = Some (x, y, z) /\
    is_finite x = false /\ is_finite y = false /\ is_finite z = false.
Proof.
  intros Hi Hd.
  split; [rewrite Hd; reflexivity|].
  rewrite generate_stars_position by exact Hi.
  destruct (drawn g i) as [[x0 y0] z0] eqn:Ed.
  unfold placed. rewrite Hd.
  change (nltb 0 (lit 2)) with true. cbn iota zeta.
  change (ndiv (lit 2) 0) with infinity.
  cbn [fround3 fround binary64 nmul].
  eexists _, _, _. split; [reflexivity|].
  repeat split; apply fround_not_finite, mul_infinity_cases; auto.
Qed.

(** The draws 0.5, 0.5, 0.5 put the first star at the origin: its stored
    coordinates are NaN. *)
Lemma origin_star_witness :
  let g := {| draws := fun _ : nat => 0.5; cursor := 0 |} in
  unit_draws g /\
  drawn g 0 = (0, 0, 0) /\
  is_finite (2 / norm (drawn g 0)) = false /\
  exists x y z : float,
    stored_position (fst (generate_stars g)) 0 = Some (x, y, z) /\
    is_finite x = false /\ is_finite y = false /\ is_finite z = false.
Proof.
  split; [apply constant_unit_draws; reflexivity|].
  split; [reflexivity|].
  apply (origin_star_not_finite _ 0%nat); [exact first_star | reflexivity].
Defined.

End Binary64.

(** * The lifecycle: mount, frames, resize, unmount *)

Arguments generate_stars : simpl never.

(** Unfold the script's monadic code on a world, one layer. *)
Ltac js :=
  cbv [animate handleResize onMounted onUnmounted requestAnimationFrame
       cancelAnimationFrame bind read update deref call ret dispatch
       run_closure reported set_scene set_camera set_renderer
       set_animationFrameId set_stars set_starsMaterial set_window
       set_resizeListeners set_frames set_rng set_calls world_of truthy
       canvas scene camera renderer animationFrameId stars starsMaterial window
       resizeListeners frameHandle frameCallbacks rng calls initial_world].

(** Name the components of a world, so that the code computes on it. *)
Ltac open_world w :=
  destruct w as [cv sc cam rd afid st mat win ls fh fq g cs];
  cbn [canvas scene camera renderer animationFrameId stars starsMaterial window
       resizeListeners frameHandle frameCallbacks rng calls] in *.

Section Lifecycle.

Context {T : Type} `{Number T}.
Local Open Scope num_scope.
Local Open Scope js_scope.

(** ** The animation callback leaves the scene's data alone *)

Lemma animate_frame (w : World T) :
  let w' := world_of (animate w) in
  canvas w' = canvas w /\ scene w' = scene w /\ camera w' = camera w /\
  renderer w' = renderer w /\ window w' = window w /\
  resizeListeners w' = resizeListeners w /\ rng w' = rng w /\
  geometry <$> stars w' = geometry <$> stars w /\
  (fun s => ex (rotation s)) <$> stars w' = (fun s => ex (rotation s)) <$> stars w /\
  (fun s => ez (rotation s)) <$> stars w' = (fun s => ez (rotation s)) <$> stars w /\
  (fun m => (transparent m, blending m, depthWrite m)) <$> starsMaterial w'
    = (fun m => (transparent m, blending m, depthWrite m)) <$> starsMaterial w /\
  (fun m => uTexture <$> uniforms m) <$> starsMaterial w'
    = (fun m => uTexture <$> uniforms m) <$> starsMaterial w.
Proof.
  cbn zeta. open_world w. js.
  destruct st as [s|]; [|repeat split; reflexivity].
  destruct mat as [m|]; [|repeat split; reflexivity].
  destruct (uniforms m) as [u|] eqn:Eu; destruct rd as [r|];
    cbn; rewrite ?Eu; repeat split; reflexivity.
Qed.

Lemma invocations_S (n : nat) (c : JS T unit) (w : World T) :
  invocations (S n) c w =
    match c w with
    | Return _ w' => invocations n c w'
    | Throw e w' => Throw e w'
    end.
Proof. reflexivity. Qed.

(** C10. Every invocation of the animation callback leaves unchanged the
    geometry of the points object (its position, colour and size buffers),
    the camera (field of view, aspect, near, far, position, projection), the
    rotation of the points object about the two other axes, and also the
    scene, the renderer, the canvas and the viewport; of the material only
    the time uniform can change. *)
Theorem animate_footprint (n : nat) (w : World T) :
  let w' := world_of (invocations n animate w) in
  geometry <$> stars w' = geometry <$> stars w /\
  camera w' = camera w /\
  (fun s => ex (rotation s)) <$> stars w' = (fun s => ex (rotation s)) <$> stars w /\
  (fun s => ez (rotation s)) <$> stars w' = (fun s => ez (rotation s)) <$> stars w /\
  scene w' = scene w /\ renderer w' = renderer w /\
  canvas w' = canvas w /\ window w' = window w /\
  (fun m => (transparent m, blending m, depthWrite m)) <$> starsMaterial w'
    = (fun m => (transparent m, blending m, depthWrite m)) <$> starsMaterial w /\
  (fun m => uTexture <$> uniforms m) <$> starsMaterial w'
    = (fun m => uTexture <$> uniforms m) <$> starsMaterial w.
Proof.
  revert w. induction n as [|n IH]; intros w; [cbn; repeat split; reflexivity|].
  cbn zeta. rewrite invocations_S.
  pose proof (animate_frame w) as F. cbn zeta in F.
  destruct (animate w) as [[] w1 | e w1]; cbn [world_of] in F.
  - specialize (IH w1). cbn zeta in IH.
    destruct IH as (I1 & I2 & I3 & I4 & I5 & I6 & I7 & I8 & I9 & I10).
    destruct F as (F1 & F2 & F3 & F4 & F5 & F6 & F7 & F8 & F9 & F10 & F11 & F12).
    rewrite I1, I2, I3, I4, I5, I6, I7, I8, I9, I10.
    repeat split; assumption.
  - cbn [world_of].
    destruct F as (F1 & F2 & F3 & F4 & F5 & F6 & F7 & F8 & F9 & F10 & F11 & F12).
    repeat split; assumption.
Qed.

(** ** The animation callback on a world that has been set up *)

Lemma animate_ok (w : World T) (s : Points T) (m : ShaderMaterial T)
    (r : WebGLRenderer T) :
  stars w = Some s -> starsMaterial w = Some m -> renderer w = Some r ->
  animate w = Return tt (animated w s m).
Proof.
  open_world w. intros -> -> ->. unfold animated, ticked. js.
  destruct (uniforms m) as [u|]; reflexivity.
Qed.

Lemma invocations_animate (n : nat) (w : World T) (s : Points T)
    (m : ShaderMaterial T) (r : WebGLRenderer T) :
  stars w = Some s -> starsMaterial w = Some m -> renderer w = Some r ->
  exists w', invocations n animate w = Return tt w' /\
             stars w' = Some (Nat.iter n rotated s) /\
             starsMaterial w' = Some (Nat.iter n ticked m) /\
             renderer w' = Some r.
Proof.
  revert w s m. induction n as [|n IH]; intros w s m Es Em Er.
  - exists w. cbn. auto.
  - rewrite invocations_S, (animate_ok w s m r Es Em Er).
    destruct (IH (animated w s m) (rotated s) (ticked m) eq_refl eq_refl Er)
      as (w' & Hw' & Hs & Hm & Hr).
    exists w'. rewrite Hw', Hs, Hm, Hr, !Nat.iter_succ_r. auto.
Qed.

(** ** Resize *)

Lemma handleResize_ok (w : World T) (c : PerspectiveCamera T) (r : WebGLRenderer T) :
  camera w = Some c -> renderer w = Some r ->
  handleResize w = Return tt (resized w c r).
Proof.
  open_world w. intros -> ->. reflexivity.
Qed.

(** C7. One invocation of the resize handler sets the camera's aspect to
    viewport width / height, recomputes the projection from it and sizes the
    renderer to the viewport; a second invocation with the viewport
    unchanged leaves the camera and the renderer as the first left them. *)
Theorem resize_idempotent (w : World T) (c : PerspectiveCamera T)
    (r : WebGLRenderer T) :
  camera w = Some c -> renderer w = Some r ->
  let v := window w in
  exists (w1 w2 : World T) (c1 : PerspectiveCamera T) (r1 : WebGLRenderer T),
    handleResize w = Return tt w1 /\
    camera w1 = Some c1 /\ renderer w1 = Some r1 /\
    aspect c1 = innerWidth v / innerHeight v /\
    projectionMatrix c1
      = {| p_fov := fov c; p_aspect := innerWidth v / innerHeight v;
           p_near := near c; p_far := far c |} /\
    width r1 = innerWidth v /\ height r1 = innerHeight v /\
    window w1 = v /\
    handleResize w1 = Return tt w2 /\
    camera w2 = camera w1 /\ renderer w2 = renderer w1.
Proof.
  intros Ec Er v.
  eexists (resized w c r), _, _, _.
  split; [exact (handleResize_ok w c r Ec Er)|].
  split; [reflexivity|]. split; [reflexivity|].
  repeat (split; [reflexivity|]).
  split; [apply handleResize_ok; reflexivity|].
  split; reflexivity.
Qed.

(** ** Mount and unmount without a canvas *)

(** The page on which nothing was set up: no canvas, and only the viewport
    may have changed since the start. *)
Lemma dispatch_inert (e : BrowserEvent T) (v : Window T) (g : Rng T) :
  exists v', dispatch e (initial_world None v g) = Return tt (initial_world None v' g).
Proof.
  destruct e as [|a b]; js; cbn [map run_all]; js; eexists; reflexivity.
Qed.

Lemma run_events_inert (es : list (BrowserEvent T)) (v : Window T) (g : Rng T) :
  exists v', run_events es (initial_world None v g) = Return tt (initial_world None v' g).
Proof.
  revert v. induction es as [|e es IH]; intros v.
  - exists v. reflexivity.
  - destruct (dispatch_inert e v g) as [v1 H1].
    destruct (IH v1) as [v2 H2].
    exists v2. cbn [run_events]. unfold bind at 1. rewrite H1. exact H2.
Qed.

(** C4. Without a canvas the mount callback returns at once, without an
    error and leaving the world as it was; whatever frames and resize
    events follow, no scene, camera or renderer exists, no listener and no
    animation callback is registered, and the log of calls stays empty: in
    particular nothing is ever rendered. *)
Theorem mount_without_canvas (v : Window T) (g : Rng T)
    (es : list (BrowserEvent T)) :
  let w0 := initial_world None v g in
  onMounted w0 = Return tt w0 /\
  exists w : World T,
    (onMounted ;; run_events es) w0 = Return tt w /\
    scene w = None /\ camera w = None /\ renderer w = None /\
    stars w = None /\ starsMaterial w = None /\
    resizeListeners w = [] /\ frameCallbacks w = [] /\
    animationFrameId w = None /\
    calls w = [] /\ count_calls is_Render w = 0%nat.
Proof.
  cbn zeta. split; [reflexivity|].
  destruct (run_events_inert es v g) as [v' Hv'].
  exists (initial_world None v' g).
  split; [exact Hv'|]. repeat split; reflexivity.
Qed.

(** C9. When no renderer was constructed and no animation handle stored
    (mount did not run its setup), the unmount callback does nothing: the
    cancellation is skipped, the optional call of [dispose] is skipped, the
    world is unchanged and no error is raised. *)
Theorem unmount_without_setup (w : World T) :
  renderer w = None -> animationFrameId w = None ->
  onUnmounted w = Return tt w.
Proof.
  open_world w. intros -> ->. reflexivity.
Qed.

(** ** Mount, then unmount *)

Lemma mount_running (cv : HTMLCanvasElement) (v : Window T) (g : Rng T) :
  exists w1, onMounted (initial_world (Some cv) v g) = Return tt w1 /\ running w1.
Proof.
  js. destruct (generate_stars g) as [b g'].
  eexists. split; [reflexivity|].
  eexists 0%nat, _, _, _, _. repeat split; reflexivity.
Qed.

Lemma dispatch_running (e : BrowserEvent T) (w : World T) :
  running w -> exists w', dispatch e w = Return tt w' /\ running w'.
Proof.
  intros (h & s & m & r & c & Hw). open_world w.
  destruct Hw as (-> & -> & -> & -> & -> & -> & -> & -> & Ed).
  unfold count_calls in Ed. cbn [calls] in Ed.
  destruct e as [|a b].
  - js. cbn [map snd run_all]. js.
    destruct (uniforms m) as [u|];
      (eexists; split; [reflexivity|];
       eexists (S h), _, _, _, _; repeat split; try reflexivity;
       unfold count_calls; cbn; exact Ed).
  - js. cbn [run_all]. js.
    eexists. split; [reflexivity|].
    eexists h, _, _, _, _. repeat split; try reflexivity.
    unfold count_calls; cbn; exact Ed.
Qed.

Lemma run_events_running (es : list (BrowserEvent T)) (w : World T) :
  running w -> exists w', run_events es w = Return tt w' /\ running w'.
Proof.
  revert w. induction es as [|e es IH]; intros w Hw.
  - exists w. split; [reflexivity | assumption].
  - destruct (dispatch_running e w Hw) as (w1 & H1 & Hr1).
    destruct (IH w1 Hr1) as (w2 & H2 & Hr2).
    exists w2. split; [|assumption].
    cbn [run_events]. unfold bind at 1. rewrite H1. exact H2.
Qed.

Lemma unmount_running (w : World T) :
  running w ->
  exists (h : nat) (w' : World T),
    animationFrameId w = Some h /\ frameCallbacks w = [(h, Animate)] /\
    onUnmounted w = Return tt w' /\
    calls w' = Dispose :: CancelAnimationFrame h :: calls w /\
    count_calls is_Dispose w' = 1%nat /\
    count_calls is_Render w' = count_calls is_Render w /\
    stopped w'.
Proof.
  intros (h & s & m & r & c & Hw). open_world w.
  destruct Hw as (-> & -> & -> & -> & -> & -> & -> & -> & Ed).
  unfold count_calls in Ed. cbn [calls] in Ed.
  exists (S h). js.
  rewrite filter_cons_False by (cbn; intros Hne; apply Hne; reflexivity).
  rewrite filter_nil.
  eexists. repeat (split; [reflexivity|]).
  split; [unfold count_calls; cbn; rewrite Ed; reflexivity|].
  split; [reflexivity|].
  eexists _, _. repeat split; reflexivity.
Qed.

Lemma dispatch_stopped (e : BrowserEvent T) (w : World T) :
  stopped w ->
  exists w', dispatch e w = Return tt w' /\ stopped w' /\
             count_calls is_Render w' = count_calls is_Render w /\
             count_calls is_Dispose w' = count_calls is_Dispose w.
Proof.
  intros (r & c & Hw). open_world w. destruct Hw as (-> & -> & -> & ->).
  destruct e as [|a b].
  - js. cbn [map run_all]. js.
    eexists. split; [reflexivity|].
    split; [|split; reflexivity].
    eexists _, _. repeat split; reflexivity.
  - js. cbn [run_all]. js.
    eexists. split; [reflexivity|].
    split; [|split; reflexivity].
    eexists _, _. repeat split; reflexivity.
Qed.

Lemma run_events_stopped (es : list (BrowserEvent T)) (w : World T) :
  stopped w ->
  exists w', run_events es w = Return tt w' /\ stopped w' /\
             count_calls is_Render w' = count_calls is_Render w /\
             count_calls is_Dispose w' = count_calls is_Dispose w.
Proof.
  revert w. induction es as [|e es IH]; intros w Hw.
  - exists w. repeat split; [assumption].
  - destruct (dispatch_stopped e w Hw) as (w1 & H1 & Hs1 & Hr1 & Hd1).
    destruct (IH w1 Hs1) as (w2 & H2 & Hs2 & Hr2 & Hd2).
    exists w2. rewrite Hr2, Hd2, Hr1, Hd1. repeat split; [|assumption].
    cbn [run_events]. unfold bind at 1. rewrite H1. exact H2.
Qed.

(** C6. After a mount that completed its setup and any sequence of frames
    and resize events, a callback is pending and its handle is the stored
    one; the unmount callback cancels that handle and then calls [dispose],
    once; afterwards no callback is pending and, whatever frames and resize
    events follow, nothing more is rendered and [dispose] is not called
    again. *)
Theorem unmount_releases (cv : HTMLCanvasElement) (v : Window T) (g : Rng T)
    (before after : list (BrowserEvent T)) :
  exists (h : nat) (w1 w2 w3 : World T),
    (onMounted ;; run_events before) (initial_world (Some cv) v g) = Return tt w1 /\
    animationFrameId w1 = Some h /\ frameCallbacks w1 = [(h, Animate)] /\
    onUnmounted w1 = Return tt w2 /\
    calls w2 = Dispose :: CancelAnimationFrame h :: calls w1 /\
    frameCallbacks w2 = [] /\
    count_calls is_Dispose w2 = 1%nat /\
    run_events after w2 = Return tt w3 /\
    count_calls is_Render w3 = count_calls is_Render w1 /\
    count_calls is_Dispose w3 = 1%nat.
Proof.
  destruct (mount_running cv v g) as (w0 & H0 & Hr0).
  destruct (run_events_running before w0 Hr0) as (w1 & H1 & Hr1).
  destruct (unmount_running w1 Hr1) as (h & w2 & Ea & Eq & H2 & Hc & Hd & Hn & Hs2).
  destruct (run_events_stopped after w2 Hs2) as (w3 & H3 & _ & Hn3 & Hd3).
  exists h, w1, w2, w3.
  split; [unfold bind at 1; rewrite H0; exact H1|].
  destruct Hs2 as (r & c & Eq2 & _).
  rewrite Hn3, Hd3, Hn, Hd. repeat split; assumption.
Qed.

Lemma increments_rule_holds : increments_rule (T := T).
Proof.
  intros n w s m r Es Em Er.
  destruct (invocations_animate n w s m r Es Em Er) as (w' & Hw' & Hs & Hm & _).
  exists w'. auto.
Qed.

(** ** The mounted page *)

(** A mount with a canvas builds the camera (field of view 75, aspect
    viewport width / height, near 0.1, far 1000, at depth 5), the renderer
    (sized to the viewport, with the display's pixel ratio), and a points
    object whose geometry holds the three generated buffers under the names
    "position", "color" and "size"; the first invocation of [animate] has
    already run. *)
Lemma mounted_world (cv : HTMLCanvasElement) (v : Window T) (g : Rng T) :
  let b := fst (generate_stars g) in
  exists (w : World T) (s : Points T),
    onMounted (initial_world (Some cv) v g) = Return tt w /\
    camera w = Some
      {| fov := lit 75; aspect := innerWidth v / innerHeight v;
         near := lit 0.1; far := lit 1000;
         position := {| vx := lit 0; vy := lit 0; vz := lit 5 |};
         projectionMatrix :=
           {| p_fov := lit 75; p_aspect := innerWidth v / innerHeight v;
              p_near := lit 0.1; p_far := lit 1000 |} |} /\
    renderer w = Some
      {| domElement := cv; antialias := true;
         width := innerWidth v; height := innerHeight v;
         pixelRatio := devicePixelRatio v |} /\
    scene w = Some {| children := [StarsObject] |} /\
    stars w = Some s /\
    geometry s !! "position" = Some {| array := positions b; itemSize := 3 |} /\
    geometry s !! "color" = Some {| array := colors b; itemSize := 3 |} /\
    geometry s !! "size" = Some {| array := sizes b; itemSize := 1 |} /\
    rotation s = {| ex := lit 0; ey := lit 0 + lit 0.0002; ez := lit 0 |} /\
    rng w = snd (generate_stars g) /\
    count_calls is_Render w = 1%nat.
Proof.
  cbn zeta. js. destruct (generate_stars g) as [b g'].
  eexists _, _. split; [reflexivity|].
  repeat split; reflexivity.
Qed.

End Lifecycle.

(** ** The lifecycle theorems at a concrete page, in binary64 *)

Section Binary64Lifecycle.

Local Open Scope float_scope.
Local Open Scope js_scope.


Lemma resize_idempotent_witness :
  let w := set_renderer (Some (new_WebGLRenderer CanvasElement true))
             (set_camera (Some (new_PerspectiveCamera 75 1 0.1 1000))
                (initial_world (Some CanvasElement) example_window example_rng)) in
  exists (w1 w2 : World float),
    handleResize w = Return tt w1 /\
    aspect <$> camera w1 = Some (1920 / 1080) /\
    (fun r => (width r, height r)) <$> renderer w1 = Some (1920, 1080) /\
    handleResize w1 = Return tt w2 /\
    camera w2 = camera w1 /\ renderer w2 = renderer w1.
Proof.
  intros w.
  destruct (resize_idempotent w _ _ eq_refl eq_refl)
    as (w1 & w2 & c1 & r1 & H1 & Hc & Hr & Ha & _ & Hw & Hh & _ & H2 & Ec & Er).
  exists w1, w2. rewrite Hc, Hr. cbn [fmap option_fmap option_map].
  rewrite Ha, Hw, Hh. repeat split; try assumption; try reflexivity; congruence.
Defined.

Lemma unmount_without_setup_witness :
  let w := world_of (onMounted (initial_world None example_window example_rng)) in
  renderer w = None /\ animationFrameId w = None /\
  onUnmounted w = Return tt w.
Proof.
  intros w. split; [reflexivity|]. split; [reflexivity|].
  apply (unmount_without_setup w); reflexivity.
Defined.

End Binary64Lifecycle.

(** ** The animation increments, in exact arithmetic *)

Section ExactAnimation.

Local Open Scope R_scope.
Local Open Scope js_scope.

Lemma iter_rotated_exact (n : nat) (s : Points R) :
  ey (rotation (Nat.iter n rotated s)) = ey (rotation s) + INR n * 0.0002.
Proof.
  induction n as [|n IH]; [cbn; lra|].
  rewrite Nat.iter_succ, S_INR. unfold rotated at 1. cbn [rotation ey nadd exact lit].
  rewrite IH. unfold Q2R. cbn. lra.
Qed.

Lemma iter_ticked_exact (n : nat) (m : ShaderMaterial R) (u : Uniforms R) :
  uniforms m = Some u ->
  uniforms (Nat.iter n ticked m)
    = Some {| uTime := uTime u + INR n * 0.01; uTexture := uTexture u |}.
Proof.
  intros Eu. induction n as [|n IH].
  - cbn. rewrite Eu. destruct u as [t x]. cbn. f_equal. f_equal. lra.
  - rewrite Nat.iter_succ, S_INR. unfold ticked at 1. rewrite IH.
    cbn [uniforms uTime uTexture nadd exact lit]. f_equal. f_equal.
    unfold Q2R. cbn. lra.
Qed.

Lemma iter_ticked_none (n : nat) (m : ShaderMaterial R) :
  uniforms m = None -> Nat.iter n ticked m = m.
Proof.
  intros Eu. induction n as [|n IH]; [reflexivity|].
  rewrite Nat.iter_succ, IH. unfold ticked. rewrite Eu. reflexivity.
Qed.



End ExactAnimation.

(** * Further properties of the script *)

Section Reachable.

Context {T : Type} `{Number T}.
Local Open Scope num_scope.
Local Open Scope js_scope.

Lemma generate_stars_length (g : Rng T) :
  let b := fst (generate_stars g) in
  length (elems (positions b)) = (starCount * 3)%nat /\
  length (elems (colors b)) = (starCount * 3)%nat /\
  length (elems (sizes b)) = starCount.
Proof.
  cbn zeta. unfold generate_stars.
  pose proof (star_loop_length starCount
    {| positions := new_Float32Array (starCount * 3);
       colors := new_Float32Array (starCount * 3);
       sizes := new_Float32Array starCount |} g) as (Lp & Lc & Ls).
  cbn zeta in *. rewrite Lp, Lc, Ls.
  cbn [positions colors sizes new_Float32Array elems].
  rewrite !length_replicate. auto.
Qed.


(** ** The invariant of the mounted component *)

(** Name the components of the objects a [live] world holds. *)
Ltac open_live Hw :=
  let s := fresh "s" in let m := fresh "m" in let u := fresh "u" in
  let r := fresh "r" in let c := fresh "c" in
  destruct Hw as (s & m & u & r & c & (? & ? & ? & ?) & (? & ?) & (? & ? & ?)
                    & (? & ? & ? & ?) & (? & ? & ? & ? & ? & ? & ?) & (? & ? & ?));
  destruct s as [geo rot]; destruct m as [un tr bl dw]; destruct u as [t tex];
  destruct r as [de aa wd ht pr]; destruct c as [fv asp nr fr pos pm];
  unfold count_calls in *;
  cbn [canvas scene camera renderer animationFrameId stars starsMaterial window
       resizeListeners frameHandle frameCallbacks rng calls
       rotation uniforms uTime width height pixelRatio aspect projectionMatrix
       fov near far position] in *;
  subst.

Lemma mount_live (cv : HTMLCanvasElement) (v : Window T) (g : Rng T) :
  exists w, onMounted (initial_world (Some cv) v g) = Return tt w /\ live 0 w /\
            window w = v.
Proof.
  js. destruct (generate_stars g) as [b g'].
  eexists. split; [reflexivity|]. split; [|reflexivity].
  eexists _, _, _, _, _. repeat split; reflexivity.
Qed.

Lemma dispatch_live (e : BrowserEvent T) (k : nat) (w : World T) :
  live k w ->
  exists w', dispatch e w = Return tt w' /\
             live (if is_frame e then S k else k) w' /\
             window w' = resize_viewport e (window w).
Proof.
  intros Hw. open_world w. open_live Hw.
  destruct e as [|a b]; js; cbn [map snd run_all is_frame]; js;
    cbn [uniforms]; js.
  - eexists. split; [reflexivity|]. split; [|reflexivity].
    eexists _, _, _, _, _.
    repeat split; try reflexivity; unfold count_calls;
      cbn [calls List.filter is_Render is_Dispose is_RequestAnimationFrame length];
      congruence.
  - eexists. split; [reflexivity|]. split; [|reflexivity].
    eexists _, _, _, _, _.
    repeat split; try reflexivity; unfold count_calls;
      cbn [calls List.filter is_Render is_Dispose is_RequestAnimationFrame length];
      congruence.
Qed.

Lemma count_frames_cons (e : BrowserEvent T) (es : list (BrowserEvent T)) :
  count_frames (e :: es)
  = ((if is_frame e then 1 else 0) + count_frames es)%nat.
Proof. unfold count_frames. cbn [List.filter]. destruct (is_frame e); reflexivity. Qed.

Lemma run_events_live (es : list (BrowserEvent T)) (k : nat) (w : World T) :
  live k w ->
  exists w', run_events es w = Return tt w' /\ live (k + count_frames es) w' /\
             window w' = viewport_after es (window w).
Proof.
  revert k w. induction es as [|e es IH]; intros k w Hw.
  - exists w. split; [reflexivity|]. split; [|reflexivity].
    unfold count_frames. cbn. rewrite Nat.add_0_r. exact Hw.
  - destruct (dispatch_live e k w Hw) as (w1 & H1 & L1 & V1).
    destruct (IH _ w1 L1) as (w2 & H2 & L2 & V2).
    exists w2. split; [|split].
    + cbn [run_events]. unfold bind at 1. rewrite H1. exact H2.
    + rewrite count_frames_cons.
      destruct (is_frame e);
        [replace (k + (1 + count_frames es))%nat
           with (S k + count_frames es)%nat by lia|];
        exact L2.
    + rewrite V2, V1. reflexivity.
Qed.

Lemma mounted_live (cv : HTMLCanvasElement) (v : Window T) (g : Rng T)
    (es : list (BrowserEvent T)) :
  exists w, (onMounted ;; run_events es) (initial_world (Some cv) v g) = Return tt w /\
            live (count_frames es) w /\ window w = viewport_after es v.
Proof.
  destruct (mount_live cv v g) as (w0 & H0 & L0 & V0).
  destruct (run_events_live es 0 w0 L0) as (w & Hw & L & V).
  exists w. split; [unfold bind at 1; rewrite H0; exact Hw|].
  split; [exact L|]. rewrite V, V0. reflexivity.
Qed.

(** X2. After a mount and any sequence of events of which [n] are frames,
    [animate] has run [n + 1] times and every run rendered once and
    requested one more frame (resize events render nothing): the log holds
    [n + 1] render calls and [n + 1] frame requests; the one pending
    callback is [animate] under the handle [n + 1], which is the stored
    one; the rotation about the vertical axis is 0.0002 added [n + 1] times
    to 0, those about the other axes are 0, and the time uniform is 0.01
    added [n + 1] times to 0. *)
Theorem frame_accounting (cv : HTMLCanvasElement) (v : Window T) (g : Rng T)
    (es : list (BrowserEvent T)) :
  let n := count_frames es in
  exists (w : World T) (s : Points T) (m : ShaderMaterial T),
    (onMounted ;; run_events es) (initial_world (Some cv) v g) = Return tt w /\
    count_calls is_Render w = S n /\
    count_calls is_RequestAnimationFrame w = S n /\
    frameCallbacks w = [(S n, Animate)] /\
    animationFrameId w = Some (S n) /\
    stars w = Some s /\
    rotation s = {| ex := lit 0;
                    ey := Nat.iter (S n) (fun a => a + lit 0.0002) (lit 0);
                    ez := lit 0 |} /\
    starsMaterial w = Some m /\
    uTime <$> uniforms m = Some (Nat.iter (S n) (fun t => t + lit 0.01) (lit 0)).
Proof.
  intros n.
  destruct (mounted_live cv v g es) as (w & Hw & L & _).
  destruct L as (s & m & u & r & c & (Ea & _ & Eq & _) & (Es & Er) & (Em & Eu & Et)
                   & _ & _ & (Cr & Cq & _)).
  exists w, s, m. rewrite Eu. cbn [fmap option_fmap option_map]. rewrite Et.
  repeat split; assumption.
Qed.

(** X3. After a mount and any sequence of events the camera and the
    renderer agree with the present viewport, which is that of the last
    resize event (or of the mount, when there was none): aspect = width /
    height, the projection computed from that aspect, the renderer sized to
    width x height.  Field of view 75, near 0.1, far 1000 and the position
    at depth 5 never change, and the pixel ratio stays the one read at
    mount. *)
Theorem viewport_consistency (cv : HTMLCanvasElement) (v : Window T) (g : Rng T)
    (es : list (BrowserEvent T)) :
  exists (w : World T) (c : PerspectiveCamera T) (r : WebGLRenderer T),
    (onMounted ;; run_events es) (initial_world (Some cv) v g) = Return tt w /\
    window w = viewport_after es v /\
    camera w = Some c /\
    aspect c = innerWidth (window w) / innerHeight (window w) /\
    projectionMatrix c
      = {| p_fov := lit 75;
           p_aspect := innerWidth (window w) / innerHeight (window w);
           p_near := lit 0.1; p_far := lit 1000 |} /\
    (fov c, near c, far c) = (lit 75, lit 0.1, lit 1000) /\
    position c = {| vx := lit 0; vy := lit 0; vz := lit 5 |} /\
    renderer w = Some r /\
    (width r, height r) = (innerWidth (window w), innerHeight (window w)) /\
    pixelRatio r = devicePixelRatio v.
Proof.
  destruct (mounted_live cv v g es) as (w & Hw & L & V).
  destruct L as (s & m & u & r & c & _ & _ & _ & (Er & Ewd & Eht & Epr)
                   & (Ec & Ea & Ep & Ef & En & Efr & Epos) & _).
  exists w, c, r.
  assert (Ed : devicePixelRatio (viewport_after es v) = devicePixelRatio v).
  { clear. revert v. induction es as [|e es IH]; intros v; [reflexivity|].
    cbn [viewport_after fold_left]. fold (viewport_after es (resize_viewport e v)).
    rewrite IH. destruct e; reflexivity. }
  rewrite Ep, Ef, En, Efr, Epos, Ewd, Eht, Epr, Ea, V, Ed.
  repeat split; assumption || reflexivity || congruence.
Qed.


(** ** After the unmount *)

Lemma bind_return {A B : Type} (c : JS T A) (k : A -> JS T B)
    (w w' : World T) (a : A) :
  c w = Return a w' -> bind c k w = k a w'.
Proof. intros E. unfold bind. rewrite E. reflexivity. Qed.

Lemma unmount_live (k : nat) (w : World T) :
  live k w ->
  exists (w' : World T) (s : Points T) (m : ShaderMaterial T),
    onUnmounted w = Return tt w' /\
    stars w = Some s /\ starsMaterial w = Some m /\
    halted s m w' /\
    animationFrameId w' = Some (S k) /\
    calls w' = Dispose :: CancelAnimationFrame (S k) :: calls w.
Proof.
  intros Hw. open_world w. open_live Hw. js.
  rewrite filter_cons_False by (cbn; intros Hne; apply Hne; reflexivity).
  rewrite filter_nil.
  eexists _, _, _. repeat (split; [reflexivity|]).
  split; [|split; reflexivity].
  eexists _, _. repeat split; reflexivity.
Qed.

Lemma dispatch_halted (e : BrowserEvent T) (s : Points T) (m : ShaderMaterial T)
    (w : World T) :
  halted s m w ->
  exists w', dispatch e w = Return tt w' /\ halted s m w' /\
             animationFrameId w' = animationFrameId w.
Proof.
  intros (r & c & Hw). open_world w. destruct Hw as (-> & -> & -> & -> & -> & ->).
  destruct e as [|a b]; js; cbn [map run_all]; js;
    (eexists; split; [reflexivity|]; split; [|reflexivity];
     eexists _, _; repeat split; reflexivity).
Qed.

Lemma run_events_halted (es : list (BrowserEvent T)) (s : Points T)
    (m : ShaderMaterial T) (w : World T) :
  halted s m w ->
  exists w', run_events es w = Return tt w' /\ halted s m w' /\
             animationFrameId w' = animationFrameId w.
Proof.
  revert w. induction es as [|e es IH]; intros w Hw.
  - exists w. repeat split; [assumption].
  - destruct (dispatch_halted e s m w Hw) as (w1 & H1 & L1 & A1).
    destruct (IH w1 L1) as (w2 & H2 & L2 & A2).
    exists w2. split; [|split; [exact L2 | congruence]].
    cbn [run_events]. unfold bind at 1. rewrite H1. exact H2.
Qed.

Lemma resize_halted (a b : T) (s : Points T) (m : ShaderMaterial T)
    (w : World T) :
  halted s m w ->
  exists (w' : World T) (c : PerspectiveCamera T) (r : WebGLRenderer T),
    dispatch (Resize a b) w = Return tt w' /\
    camera w' = Some c /\ aspect c = a / b /\
    renderer w' = Some r /\ (width r, height r) = (a, b) /\
    calls w' = SetSize a b :: UpdateProjectionMatrix :: calls w.
Proof.
  intros (r & c & Hw). open_world w. destruct Hw as (-> & -> & -> & -> & -> & ->).
  js. cbn [run_all]. js.
  eexists _, _, _. repeat split; reflexivity.
Qed.

(** X4. The unmount callback does not remove the listener of the resize
    event.  After a mount, any events and the unmount, the listener is
    still registered, and a resize event still runs [handleResize]: it sets
    the camera's aspect to the new width / height and calls [setSize] on the
    renderer, after [dispose] has been called on it. *)
Theorem listener_survives_unmount (cv : HTMLCanvasElement) (v : Window T)
    (g : Rng T) (before : list (BrowserEvent T)) (a b : T) :
  exists (w2 w3 : World T) (c : PerspectiveCamera T) (r : WebGLRenderer T)
         (h : nat) (earlier : list (Call T)),
    (onMounted ;; run_events before ;; onUnmounted)
      (initial_world (Some cv) v g) = Return tt w2 /\
    resizeListeners w2 = [HandleResize] /\
    dispatch (Resize a b) w2 = Return tt w3 /\
    camera w3 = Some c /\ aspect c = a / b /\
    renderer w3 = Some r /\ (width r, height r) = (a, b) /\
    calls w3 = SetSize a b :: UpdateProjectionMatrix
                 :: Dispose :: CancelAnimationFrame h :: earlier.
Proof.
  destruct (mount_live cv v g) as (w0 & H0 & L0 & _).
  destruct (run_events_live before 0 w0 L0) as (w1 & H1 & L1 & _).
  destruct (unmount_live _ w1 L1) as (w2 & s & m & H2 & _ & _ & Hh & _ & Hc).
  destruct (resize_halted a b s m w2 Hh) as (w3 & c & r & H3 & Ec & Ea & Er & Es & Ecs).
  exists w2, w3, c, r, (S (0 + count_frames before)), (calls w1).
  split.
  { rewrite (bind_return _ _ _ _ _ H0), (bind_return _ _ _ _ _ H1). exact H2. }
  destruct Hh as (r2 & c2 & _ & El & _).
  split; [exact El|]. split; [exact H3|]. split; [exact Ec|]. split; [exact Ea|].
  split; [exact Er|]. split; [exact Es|].
  rewrite Ecs, Hc. reflexivity.
Qed.

(** X5. The animation stops at the unmount for good.  After a mount, any
    events and the unmount, whatever frames and resize events follow, the
    points object (its rotation) and the material (its time uniform) stay as
    the unmount found them, no callback is pending, and
    [animationFrameId] still holds the cancelled handle: the unmount
    callback does not clear it. *)
Theorem animation_stops_at_unmount (cv : HTMLCanvasElement) (v : Window T)
    (g : Rng T) (before after : list (BrowserEvent T)) :
  exists (w1 w2 w3 : World T),
    (onMounted ;; run_events before) (initial_world (Some cv) v g) = Return tt w1 /\
    onUnmounted w1 = Return tt w2 /\
    run_events after w2 = Return tt w3 /\
    stars w3 = stars w1 /\ starsMaterial w3 = starsMaterial w1 /\
    frameCallbacks w3 = [] /\
    animationFrameId w3 = animationFrameId w1 /\
    animationFrameId w3 = Some (S (count_frames before)).
Proof.
  destruct (mounted_live cv v g before) as (w1 & H1 & L1 & _).
  destruct (unmount_live _ w1 L1) as (w2 & s & m & H2 & Es & Em & Hh & Ea & _).
  destruct (run_events_halted after s m w2 Hh) as (w3 & H3 & Hh3 & Ea3).
  exists w1, w2, w3.
  destruct Hh3 as (r & c & Eq & _ & Es3 & Em3 & _).
  destruct L1 as (? & ? & ? & ? & ? & (Ea1 & _) & _).
  repeat split; congruence.
Qed.

(** ** What the callbacks leave alone, from any state *)

(** X6. [handleResize], from any state and also when it throws, changes
    nothing but the camera's aspect and projection and the renderer's size:
    the field of view, near, far and position of the camera, the canvas,
    antialiasing and pixel ratio of the renderer, the points object, the
    material, the scene, the scheduler, the listeners and the stored handle
    are as before, and it renders nothing. *)
Theorem resize_footprint (w : World T) :
  let w' := world_of (handleResize w) in
  (fun c => (fov c, near c, far c, position c)) <$> camera w'
    = (fun c => (fov c, near c, far c, position c)) <$> camera w /\
  (fun r => (domElement r, antialias r, pixelRatio r)) <$> renderer w'
    = (fun r => (domElement r, antialias r, pixelRatio r)) <$> renderer w /\
  stars w' = stars w /\ starsMaterial w' = starsMaterial w /\
  scene w' = scene w /\ canvas w' = canvas w /\ window w' = window w /\
  animationFrameId w' = animationFrameId w /\
  frameHandle w' = frameHandle w /\ frameCallbacks w' = frameCallbacks w /\
  resizeListeners w' = resizeListeners w /\ rng w' = rng w /\
  count_calls is_Render w' = count_calls is_Render w.
Proof.
  cbn zeta. open_world w. js.
  destruct cam as [c|]; [|repeat split; reflexivity].
  destruct rd as [r|]; repeat split; reflexivity.
Qed.

(** X7. The unmount callback returns normally from any state.  It assigns
    no variable: the renderer, scene, camera, points object, material and
    the stored handle are as before, and so are the listeners.  It calls
    [dispose] exactly when a renderer exists, and it removes from the
    scheduler exactly the callbacks whose handle is the stored one, when
    that is a non-zero number. *)
Theorem unmount_footprint (w : World T) :
  exists w' : World T,
    onUnmounted w = Return tt w' /\
    (canvas w', scene w', camera w', renderer w') =
      (canvas w, scene w, camera w, renderer w) /\
    (stars w', starsMaterial w', animationFrameId w') =
      (stars w, starsMaterial w, animationFrameId w) /\
    (window w', resizeListeners w', frameHandle w', rng w') =
      (window w, resizeListeners w, frameHandle w, rng w) /\
    count_calls is_Dispose w'
      = (count_calls is_Dispose w
         + match renderer w with Some _ => 1 | None => 0 end)%nat /\
    count_calls is_Render w' = count_calls is_Render w /\
    frameCallbacks w'
      = match animationFrameId w with
        | Some (S h) => filter (fun e => fst e <> S h) (frameCallbacks w)
        | _ => frameCallbacks w
        end.
Proof.
  open_world w. unfold count_calls. js.
  destruct afid as [[|h]|]; destruct rd as [r|]; js;
    (eexists; split; [reflexivity|]; cbn [calls List.filter is_Dispose is_Render
       length]; repeat split; try reflexivity; lia).
Qed.

(** X12. [animate] re-queues itself before anything else: from any state,
    and also when the invocation then throws, the next frame has been
    requested (one callback more in the scheduler, under a fresh handle) and
    that handle is the stored one; the invocation renders once exactly when
    it returns normally. *)
Theorem animate_requeues_first (w : World T) :
  let w' := world_of (animate w) in
  frameHandle w' = S (frameHandle w) /\
  frameCallbacks w' = frameCallbacks w ++ [(S (frameHandle w), Animate)] /\
  animationFrameId w' = Some (S (frameHandle w)) /\
  count_calls is_RequestAnimationFrame w'
    = S (count_calls is_RequestAnimationFrame w) /\
  count_calls is_Render w'
    = match animate w with
      | Return _ _ => S (count_calls is_Render w)
      | Throw _ _ => count_calls is_Render w
      end.
Proof.
  cbn zeta. open_world w. unfold count_calls. js.
  destruct st as [s|]; [|repeat split; reflexivity].
  destruct mat as [m|]; [|repeat split; reflexivity].
  destruct (uniforms m) as [u|]; destruct rd as [r|]; repeat split; reflexivity.
Qed.

(** ** The draws of the generation step *)

(** X8. The generation step calls [Math.random] exactly 14000 times, seven
    times per star, and reads each value once: afterwards the oracle stands
    14000 draws further. *)
Theorem generation_consumes_draws (g : Rng T) :
  snd (generate_stars g) = {| draws := draws g; cursor := cursor g + 14000 |}.
Proof.
  unfold generate_stars. rewrite star_loop_rng.
  assert (E : (7 * starCount = 14000)%nat) by reflexivity.
  rewrite E. reflexivity.
Qed.

(** X9. What is stored for star [i] depends on the seven draws of its own
    iteration only: two oracles that agree on the draws [7 i .. 7 i + 6]
    after their cursors give star [i] the same position, colour and size,
    whatever they return for the other stars. *)
Theorem star_locality (g1 g2 : Rng T) (i : nat) :
  (i < starCount)%nat ->
  (forall j : nat, (j < 7)%nat ->
     draws g1 (cursor g1 + 7 * i + j) = draws g2 (cursor g2 + 7 * i + j)) ->
  let b1 := fst (generate_stars g1) in
  let b2 := fst (generate_stars g2) in
  stored_position b1 i = stored_position b2 i /\
  (forall k : nat, (k < 3)%nat ->
     elems (colors b1) !! (i * 3 + k)%nat = elems (colors b2) !! (i * 3 + k)%nat) /\
  elems (sizes b1) !! i = elems (sizes b2) !! i.
Proof.
  intros Hi Hd b1 b2. subst b1 b2.
  pose proof (Hd 0%nat ltac:(lia)) as D0. rewrite !Nat.add_0_r in D0.
  pose proof (Hd 1%nat ltac:(lia)) as D1.
  pose proof (Hd 2%nat ltac:(lia)) as D2.
  pose proof (Hd 6%nat ltac:(lia)) as D6.
  split; [|split].
  - rewrite !generate_stars_position by exact Hi.
    unfold drawn. rewrite D0, D1, D2. reflexivity.
  - intros k Hk. rewrite !generate_stars_color by assumption.
    unfold drawn_color.
    replace (cursor g1 + 7 * i + 3 + k)%nat with (cursor g1 + 7 * i + (3 + k))%nat by lia.
    replace (cursor g2 + 7 * i + 3 + k)%nat with (cursor g2 + 7 * i + (3 + k))%nat by lia.
    rewrite (Hd (3 + k)%nat) by lia. reflexivity.
  - rewrite !generate_stars_size by exact Hi.
    unfold drawn_size. rewrite D6. reflexivity.
Qed.

End Reachable.

(** ** Further properties, at a concrete page and in each arithmetic *)

Section ReachableBinary64.

Local Open Scope float_scope.
Local Open Scope js_scope.


Lemma star_locality_witness :
  let g1 := {| draws := fun k : nat => if (k <? 7)%nat then 0.25 else 0.5;
               cursor := 0 |} in
  let g2 := {| draws := fun k : nat => if (k <? 7)%nat then 0.25 else 0.75;
               cursor := 0 |} in
  stored_position (fst (generate_stars g1)) 0
    = stored_position (fst (generate_stars g2)) 0.
Proof.
  intros g1 g2.
  assert (Hd : forall j : nat, (j < 7)%nat ->
            draws g1 (cursor g1 + 7 * 0 + j) = draws g2 (cursor g2 + 7 * 0 + j)).
  { intros j Hj. unfold g1, g2. cbn [draws cursor].
    destruct (Nat.ltb_spec (0 + 7 * 0 + j) 7) as [_ | Hge]; [reflexivity | lia]. }
  destruct (star_locality g1 g2 0%nat first_star Hd) as [Hp _]. exact Hp.
Defined.

(** Dividing a positive double by zero gives infinity. *)
Lemma div_zero_infinity (x : float) :
  PrimFloat.ltb 0 x = true -> x / 0 = infinity.
Proof.
  intros Hx. rewrite ltb_spec in Hx.
  rewrite <- (SF2Prim_Prim2SF (x / 0)), div_spec.
  destruct (Prim2SF x) as [[|] | [|] | | [|] m e]; cbn in Hx;
    try discriminate Hx; reflexivity.
Qed.

(** X10. [handleResize] does not guard against a viewport of height 0.  In
    binary64, with height 0 and a positive width the quotient width /
    height is infinite: [handleResize] returns normally and leaves the
    camera's aspect, and the projection computed from it, at infinity. *)
Theorem zero_height_viewport (w : World float) (c : PerspectiveCamera float)
    (r : WebGLRenderer float) :
  camera w = Some c -> renderer w = Some r ->
  innerHeight (window w) = 0 ->
  PrimFloat.ltb 0 (innerWidth (window w)) = true ->
  exists (w' : World float) (c' : PerspectiveCamera float),
    handleResize w = Return tt w' /\
    camera w' = Some c' /\
    aspect c' = infinity /\
    p_aspect (projectionMatrix c') = infinity /\
    is_finite (aspect c') = false.
Proof.
  intros Ec Er Eh Hw.
  rewrite (handleResize_ok w c r Ec Er).
  eexists _, _. split; [reflexivity|]. split; [reflexivity|].
  cbn [camera resized updateProjectionMatrix aspect projectionMatrix p_aspect
       ndiv binary64].
  rewrite Eh, (div_zero_infinity _ Hw). repeat split; reflexivity.
Qed.

Lemma zero_height_viewport_witness :
  let w := set_window {| innerWidth := 1920; innerHeight := 0;
                         devicePixelRatio := 2 |}
             (set_camera (Some (new_PerspectiveCamera 75 1 0.1 1000))
                example_scene) in
  exists (w' : World float) (c' : PerspectiveCamera float),
    handleResize w = Return tt w' /\
    camera w' = Some c' /\
    aspect c' = infinity /\
    p_aspect (projectionMatrix c') = infinity /\
    is_finite (aspect c') = false.
Proof.
  intros w. apply (zero_height_viewport w _ _ eq_refl eq_refl); reflexivity.
Defined.

End ReachableBinary64.

Section ReachableExact.

Local Open Scope R_scope.



End ReachableExact.
